(** * flexy-fit: the visibility gate and the fit engine

    A shallow embedding of [src/FlexyFit.tsx] (the public component, which
    decides whether anything is rendered) and of [src/FlexyFitInternal.tsx]
    (the engine, which measures the container and scales it).

    Numbers.  The engine divides and multiplies measured sizes, so its numbers
    are JavaScript numbers: IEEE 754 binary64, here the primitive [float].
    [!==] on numbers is the negation of IEEE equality (true as soon as an
    operand is NaN) and [>] the IEEE comparison (false as soon as an operand
    is NaN).  The gate only compares
    [window.innerWidth] and [window.innerHeight], which are integral CSS
    pixels, with thresholds; they are integers [Z], and so are the bounds of a
    breakpoint.

    React.  A component function is modelled by the values it closes over:
    its props and the hook state of the render that created the callback.  A
    state setter does not change what the running callback reads; it
    contributes to the state of the next render.  Every callback runs against
    the last committed render, and the render it causes is committed before
    the next callback runs. *)

From Stdlib Require Import Floats ZArith List Bool String Lia.
Import ListNotations.

(** ** JavaScript operators *)

(** [a ?? b] with a nullable left operand that is either absent or a value. *)
Definition nullish {A : Type} (a : option A) (b : option A) : option A :=
  match a with
  | Some v => Some v
  | None => b
  end.

(** [a ?? b] with a default that is always present. *)
Definition nullish_default {A : Type} (a : option A) (b : A) : A :=
  match a with
  | Some v => v
  | None => b
  end.

(** [x === null] *)
Definition is_null {A : Type} (a : option A) : bool :=
  match a with
  | Some _ => false
  | None => true
  end.

(** [a !== b] on numbers. *)
Definition strict_ne (a b : float) : bool := negb (PrimFloat.eqb a b).

(** [a > b] on numbers. *)
Definition gt (a b : float) : bool := PrimFloat.ltb b a.

(** Truthiness of a number: every number but 0, -0 and NaN. *)
Definition truthy_number (a : float) : bool :=
  PrimFloat.eqb a a && negb (PrimFloat.eqb a 0%float).

(** ** [types.ts] *)

Module Types.

(** ["sm" | "md" | "lg" | "xl" | "2xl"]; an identifier cannot start with a
    digit, so ["2xl"] is [xxl]. *)
Inductive ResponsiveType : Type := sm | md | lg | xl | xxl.

Definition ResponsiveType_eqb (a b : ResponsiveType) : bool :=
  match a, b with
  | sm, sm | md, md | lg, lg | xl, xl | xxl, xxl => true
  | _, _ => false
  end.

(** ["width" | "height"] *)
Inductive FitTo : Type := Width | Height.

Definition FitTo_eqb (a b : FitTo) : bool :=
  match a, b with
  | Width, Width | Height, Height => true
  | _, _ => false
  end.

(** ["left" | "center" | "right"] and ["top" | "center" | "bottom"] *)
Inductive HorizontalOrigin : Type := left | hcenter | right.
Inductive VerticalOrigin : Type := top | vcenter | bottom.

Definition is_hcenter (o : HorizontalOrigin) : bool :=
  match o with hcenter => true | _ => false end.
Definition is_vcenter (o : VerticalOrigin) : bool :=
  match o with vcenter => true | _ => false end.

(** [{ min?: number; max?: number }] *)
Record Range : Type := { min : option Z; max : option Z }.

(** [breakpoint?: { width?: ...; height?: ... }] *)
Record Breakpoint : Type :=
  { bp_width : option Range; bp_height : option Range }.

(** [FlexyFitProps].  [children], [className] and the passed-through HTML
    attributes play no part in the logic and are left out.  A boolean prop
    that is absent reads as [undefined], which is falsy: [false]. *)
Record FlexyFitProps : Type :=
  { _width : option float;
    _height : option float;
    _fitTo : option FitTo;
    overflow : bool;
    px : bool;
    flex : bool;
    horizontalOrigin : option HorizontalOrigin;
    verticalOrigin : option VerticalOrigin;
    responsive : option (list ResponsiveType);
    breakpoint : option Breakpoint }.

(** The same props with one of them replaced. *)
Definition with_responsive (r : option (list ResponsiveType))
           (p : FlexyFitProps) :=
  {| _width := _width p; _height := _height p; _fitTo := _fitTo p;
     overflow := overflow p; px := px p; flex := flex p;
     horizontalOrigin := horizontalOrigin p;
     verticalOrigin := verticalOrigin p;
     responsive := r; breakpoint := breakpoint p |}.

Definition with_breakpoint (b : option Breakpoint) (p : FlexyFitProps) :=
  {| _width := _width p; _height := _height p; _fitTo := _fitTo p;
     overflow := overflow p; px := px p; flex := flex p;
     horizontalOrigin := horizontalOrigin p;
     verticalOrigin := verticalOrigin p;
     responsive := responsive p; breakpoint := b |}.

Definition with_fitTo (f : option FitTo) (p : FlexyFitProps) :=
  {| _width := _width p; _height := _height p; _fitTo := f;
     overflow := overflow p; px := px p; flex := flex p;
     horizontalOrigin := horizontalOrigin p;
     verticalOrigin := verticalOrigin p;
     responsive := responsive p; breakpoint := breakpoint p |}.

Definition with_flex (b : bool) (p : FlexyFitProps) :=
  {| _width := _width p; _height := _height p; _fitTo := _fitTo p;
     overflow := overflow p; px := px p; flex := b;
     horizontalOrigin := horizontalOrigin p;
     verticalOrigin := verticalOrigin p;
     responsive := responsive p; breakpoint := breakpoint p |}.

Definition with_size (w h : option float) (p : FlexyFitProps) :=
  {| _width := w; _height := h; _fitTo := _fitTo p;
     overflow := overflow p; px := px p; flex := flex p;
     horizontalOrigin := horizontalOrigin p;
     verticalOrigin := verticalOrigin p;
     responsive := responsive p; breakpoint := breakpoint p |}.

End Types.
Import Types.

(** ** [FlexyFit.tsx]: the visibility gate *)

Module FlexyFit.

(** The global [window]; [None] where [typeof window === "undefined"]. *)
Record Window : Type := { innerWidth : Z; innerHeight : Z }.

(** The two [useState(false)] cells. *)
Record State : Type := { responsiveView : bool; breakpointView : bool }.

Definition setResponsiveView (v : bool) (st : State) : State :=
  {| responsiveView := v; breakpointView := breakpointView st |}.

Definition setBreakpointView (v : bool) (st : State) : State :=
  {| responsiveView := responsiveView st; breakpointView := v |}.

(** [responsive.includes(t)] *)
Definition includes (l : list ResponsiveType) (t : ResponsiveType) : bool :=
  existsb (ResponsiveType_eqb t) l.

(** [checkResponsive], lines 15-62.  It reads no state, so threading [st]
    through the setters is exactly the batch of updates it queues. *)
Definition checkResponsive (props : FlexyFitProps) (window : option Window)
           (st : State) : State :=
  match responsive props with
  | None | Some [] => setResponsiveView true st
  | Some responsive =>
    match window with
    | None => st
    | Some window =>
      let w := innerWidth window in
      if includes responsive sm && (w <=? 640)%Z then
        setResponsiveView true st
      else if includes responsive md && (w <=? 768)%Z && (w >? 640)%Z then
        setResponsiveView true st
      else if includes responsive lg && (w <=? 1024)%Z && (w >? 768)%Z then
        setResponsiveView true st
      else if includes responsive xl && (w <=? 1280)%Z && (w >? 1024)%Z then
        setResponsiveView true st
      else if includes responsive xxl && (w <=? 1536)%Z && (w >? 1280)%Z then
        setResponsiveView true st
      else if includes responsive xxl && (w >? 1536)%Z then
        setResponsiveView true st
      else setResponsiveView false st
    end
  end.

(** [b.max !== undefined && b.max !== null && v > b.max] *)
Definition above_max (b : Range) (v : Z) : bool :=
  match max b with
  | Some m => (v >? m)%Z
  | None => false
  end.

(** [b.min !== undefined && b.min !== null && v < b.min] *)
Definition below_min (b : Range) (v : Z) : bool :=
  match min b with
  | Some m => (v <? m)%Z
  | None => false
  end.

(** The local variable [condition] of [checkBreakpoint] when it reaches
    line 106: lines 71-104. *)
Definition condition (breakpoint : Breakpoint) (window : Window) : bool :=
  let condition := true in
  let condition :=
    match bp_width breakpoint with
    | Some width =>
      let condition :=
        if above_max width (innerWidth window) then false else condition in
      let condition :=
        if below_min width (innerWidth window) then false else condition in
      condition
    | None => condition
    end in
  let condition :=
    match bp_height breakpoint with
    | Some height =>
      let condition :=
        if above_max height (innerHeight window) then false else condition in
      let condition :=
        if below_min height (innerHeight window) then false else condition in
      condition
    | None => condition
    end in
  condition.

(** [checkBreakpoint], lines 64-107.  Line 106 stores the outcome with
    [setResponsiveView], as the source has it. *)
Definition checkBreakpoint (props : FlexyFitProps) (window : option Window)
           (st : State) : State :=
  match breakpoint props with
  | None => setBreakpointView true st
  | Some breakpoint =>
    match window with
    | None => st
    | Some window => setResponsiveView (condition breakpoint window) st
    end
  end.

(** The body of the effect, lines 110-111; it runs after the mount and
    after every change of [props]. *)
Definition effect (props : FlexyFitProps) (window : option Window)
           (st : State) : State :=
  checkBreakpoint props window (checkResponsive props window st).

(** The listener the effect registers for ["resize"], line 113. *)
Definition resizeListener (props : FlexyFitProps) (window : option Window)
           (st : State) : State :=
  checkResponsive props window st.

(** [{ responsive, breakpoint, children, ...rest } = props] *)
Definition rest (props : FlexyFitProps) : FlexyFitProps :=
  with_breakpoint None (with_responsive None props).

(** The returned element, lines 119-125: the props handed to
    [FlexyFitInternal], or [None] for the empty fragment.  In
    [{...rest} fitTo="width"] the attribute written after the spread
    wins. *)
Definition FlexyFit (props : FlexyFitProps) (st : State)
  : option FlexyFitProps :=
  if responsiveView st && breakpointView st
  then Some (with_fitTo (Some Width) (rest props))
  else None.

(** Whether the engine is rendered. *)
Definition renders (props : FlexyFitProps) (st : State) : bool :=
  match FlexyFit props st with
  | Some _ => true
  | None => false
  end.

(** One mounted gate: the current props, the viewport and the state. *)
Record Gate : Type :=
  { g_props : FlexyFitProps; g_window : option Window; g_state : State }.

(** What can happen to a mounted gate: the viewport is resized (the
    registered listener runs; without a [window] the effect returned on
    line 112 and there is no listener), or the parent passes new props (the
    effect runs again). *)
Inductive Event : Type :=
| ViewportResized (window : Window)
| PropsChanged (props : FlexyFitProps).

Definition mount (props : FlexyFitProps) (window : option Window) : Gate :=
  {| g_props := props;
     g_window := window;
     g_state := effect props window
                  {| responsiveView := false; breakpointView := false |} |}.

Definition step (g : Gate) (ev : Event) : Gate :=
  match ev with
  | ViewportResized window =>
    match g_window g with
    | Some _ =>
      {| g_props := g_props g;
         g_window := Some window;
         g_state := resizeListener (g_props g) (Some window) (g_state g) |}
    | None => g
    end
  | PropsChanged props =>
    {| g_props := props;
       g_window := g_window g;
       g_state := effect props (g_window g) (g_state g) |}
  end.

Definition run (g : Gate) (evs : list Event) : Gate := fold_left step evs g.

Definition visible (g : Gate) : bool := renders (g_props g) (g_state g).

End FlexyFit.

(** ** The part of the DOM the engine reads and writes *)

Module CSS.

(** A CSS length: a number of pixels (React appends [px] to a number) or a
    percentage. *)
Inductive Length : Type := len_px (v : float) | len_percent (v : float).

(** The transform function [scale(sx)] or [scale(sx, sy)]. *)
Inductive TransformFunction : Type := scale (sx : float) (sy : option float).

(** The factors a scale applies along x and along y: with one argument the
    second factor is the first. *)
Definition factors (t : TransformFunction) : float * float :=
  match t with
  | scale sx sy => (sx, nullish_default sy sx)
  end.

(** The properties of an inline style that the component touches; [None] is
    a property that is not set. *)
Record CSSStyleDeclaration : Type :=
  { width : option Length;
    height : option Length;
    visibility : option string;
    opacity : option float;
    transform : option TransformFunction;
    transformOrigin : option (VerticalOrigin * HorizontalOrigin);
    display : option string;
    justifyContent : option string;
    alignItems : option string;
    flexShrink : option string }.

Definition empty : CSSStyleDeclaration :=
  {| width := None; height := None; visibility := None; opacity := None;
     transform := None; transformOrigin := None; display := None;
     justifyContent := None; alignItems := None; flexShrink := None |}.

Definition set_width (v : option Length) (s : CSSStyleDeclaration) :=
  {| width := v; height := height s; visibility := visibility s;
     opacity := opacity s; transform := transform s;
     transformOrigin := transformOrigin s; display := display s;
     justifyContent := justifyContent s; alignItems := alignItems s;
     flexShrink := flexShrink s |}.

Definition set_height (v : option Length) (s : CSSStyleDeclaration) :=
  {| width := width s; height := v; visibility := visibility s;
     opacity := opacity s; transform := transform s;
     transformOrigin := transformOrigin s; display := display s;
     justifyContent := justifyContent s; alignItems := alignItems s;
     flexShrink := flexShrink s |}.

Definition set_visibility (v : option string) (s : CSSStyleDeclaration) :=
  {| width := width s; height := height s; visibility := v;
     opacity := opacity s; transform := transform s;
     transformOrigin := transformOrigin s; display := display s;
     justifyContent := justifyContent s; alignItems := alignItems s;
     flexShrink := flexShrink s |}.

Definition set_opacity (v : option float) (s : CSSStyleDeclaration) :=
  {| width := width s; height := height s; visibility := visibility s;
     opacity := v; transform := transform s;
     transformOrigin := transformOrigin s; display := display s;
     justifyContent := justifyContent s; alignItems := alignItems s;
     flexShrink := flexShrink s |}.

Definition set_transform (v : option TransformFunction)
           (s : CSSStyleDeclaration) :=
  {| width := width s; height := height s; visibility := visibility s;
     opacity := opacity s; transform := v;
     transformOrigin := transformOrigin s; display := display s;
     justifyContent := justifyContent s; alignItems := alignItems s;
     flexShrink := flexShrink s |}.

Definition set_transformOrigin
           (v : option (VerticalOrigin * HorizontalOrigin))
           (s : CSSStyleDeclaration) :=
  {| width := width s; height := height s; visibility := visibility s;
     opacity := opacity s; transform := transform s;
     transformOrigin := v; display := display s;
     justifyContent := justifyContent s; alignItems := alignItems s;
     flexShrink := flexShrink s |}.

Definition set_display (v : option string) (s : CSSStyleDeclaration) :=
  {| width := width s; height := height s; visibility := visibility s;
     opacity := opacity s; transform := transform s;
     transformOrigin := transformOrigin s; display := v;
     justifyContent := justifyContent s; alignItems := alignItems s;
     flexShrink := flexShrink s |}.

Definition set_justifyContent (v : option string) (s : CSSStyleDeclaration) :=
  {| width := width s; height := height s; visibility := visibility s;
     opacity := opacity s; transform := transform s;
     transformOrigin := transformOrigin s; display := display s;
     justifyContent := v; alignItems := alignItems s;
     flexShrink := flexShrink s |}.

Definition set_alignItems (v : option string) (s : CSSStyleDeclaration) :=
  {| width := width s; height := height s; visibility := visibility s;
     opacity := opacity s; transform := transform s;
     transformOrigin := transformOrigin s; display := display s;
     justifyContent := justifyContent s; alignItems := v;
     flexShrink := flexShrink s |}.

Definition set_flexShrink (v : option string) (s : CSSStyleDeclaration) :=
  {| width := width s; height := height s; visibility := visibility s;
     opacity := opacity s; transform := transform s;
     transformOrigin := transformOrigin s; display := display s;
     justifyContent := justifyContent s; alignItems := alignItems s;
     flexShrink := v |}.

(** [style.removeProperty(name)] for the two names the engine removes. *)
Definition removeProperty_visibility := set_visibility None.
Definition removeProperty_opacity := set_opacity None.

End CSS.

Module Dom.

(** What [getBoundingClientRect()] returns, as far as it is read. *)
Record DOMRect : Type := { rect_width : float; rect_height : float }.

(** [ref.current.parentElement]: its client box and its bounding box.
    [getBoundingClientRect] is [None] where the method is missing (the
    source tests it before the call). *)
Record ParentElement : Type :=
  { parent_clientWidth : float;
    parent_clientHeight : float;
    getBoundingClientRect : option DOMRect }.

(** [ref.current]: the container [div].  The measured sizes are inputs
    from the layout; a child element is represented by its inline
    style. *)
Record HTMLDivElement : Type :=
  { clientWidth : float;
    clientHeight : float;
    style : CSS.CSSStyleDeclaration;
    parentElement : option ParentElement;
    children : list CSS.CSSStyleDeclaration }.

Definition set_style (s : CSS.CSSStyleDeclaration) (e : HTMLDivElement) :=
  {| clientWidth := clientWidth e; clientHeight := clientHeight e;
     style := s; parentElement := parentElement e;
     children := children e |}.

Definition set_children (c : list CSS.CSSStyleDeclaration)
           (e : HTMLDivElement) :=
  {| clientWidth := clientWidth e; clientHeight := clientHeight e;
     style := style e; parentElement := parentElement e;
     children := c |}.

(** The layout gives the container and its parent a new geometry. *)
Definition set_geometry (cw ch : float) (parent : option ParentElement)
           (e : HTMLDivElement) :=
  {| clientWidth := cw; clientHeight := ch;
     style := style e; parentElement := parent;
     children := children e |}.

(** [children[0]] *)
Definition children0 (e : HTMLDivElement) : option CSS.CSSStyleDeclaration :=
  nth_error (children e) 0.

(** An assignment to a style property of [children[0]], which exists. *)
Definition update_children0
           (f : CSS.CSSStyleDeclaration -> CSS.CSSStyleDeclaration)
           (e : HTMLDivElement) : HTMLDivElement :=
  match children e with
  | child :: others => set_children (f child :: others) e
  | [] => e
  end.

(** Everything of an element but the styles of its children. *)
Definition same_box (a b : HTMLDivElement) : Prop :=
  clientWidth a = clientWidth b
  /\ clientHeight a = clientHeight b
  /\ style a = style b
  /\ parentElement a = parentElement b.

End Dom.

(** ** [FlexyFitInternal.tsx]: the fit engine *)

Module FlexyFitInternal.
Import Dom.
Local Open Scope float_scope.

(** The four [useState(null)] cells. *)
Record State : Type :=
  { initialWidth : option float;
    initialHeight : option float;
    fullParentWidth : option float;
    fullParentHeight : option float }.

Definition initialState : State :=
  {| initialWidth := None; initialHeight := None;
     fullParentWidth := None; fullParentHeight := None |}.

Definition setInitialWidth (v : float) (st : State) : State :=
  {| initialWidth := Some v; initialHeight := initialHeight st;
     fullParentWidth := fullParentWidth st;
     fullParentHeight := fullParentHeight st |}.

Definition setInitialHeight (v : float) (st : State) : State :=
  {| initialWidth := initialWidth st; initialHeight := Some v;
     fullParentWidth := fullParentWidth st;
     fullParentHeight := fullParentHeight st |}.

Definition setFullParentWidth (v : float) (st : State) : State :=
  {| initialWidth := initialWidth st; initialHeight := initialHeight st;
     fullParentWidth := Some v;
     fullParentHeight := fullParentHeight st |}.

Definition setFullParentHeight (v : float) (st : State) : State :=
  {| initialWidth := initialWidth st; initialHeight := initialHeight st;
     fullParentWidth := fullParentWidth st;
     fullParentHeight := Some v |}.

(** Lines 29-31: the values of one render. *)
Definition fitTo (props : FlexyFitProps) : FitTo :=
  nullish_default (_fitTo props) Width.

Definition width (props : FlexyFitProps) (st : State) : option float :=
  nullish (_width props) (initialWidth st).

Definition height (props : FlexyFitProps) (st : State) : option float :=
  nullish (_height props) (initialHeight st).

(** [parentResize], lines 33-42. *)
Definition parentResize (st : State) (ref : option HTMLDivElement) : State :=
  match ref with
  | None => st
  | Some current =>
    match parentElement current with
    | Some parent =>
      match getBoundingClientRect parent with
      | Some rect =>
        setFullParentHeight (rect_height rect)
          (setFullParentWidth (rect_width rect) st)
      | None => st
      end
    | None => st
    end
  end.

(** [keepSyncRatio], lines 103-134.  It reads [width] and [height] of the
    render it belongs to and writes the style of [children[0]]. *)
Definition keepSyncRatio (props : FlexyFitProps) (st : State) (fitTo : FitTo)
           (ref : option HTMLDivElement) : option HTMLDivElement :=
  match ref with
  | None => ref
  | Some current =>
    match parentElement current with
    | None => ref
    | Some parent =>
      match width props st, height props st with
      | Some width, Some height =>
        let originRatio := width / height in
        let resizedParentHeight := parent_clientHeight parent in
        let resizedParentWidth := parent_clientWidth parent in
        let resizedParentRatio := resizedParentWidth / resizedParentHeight in
        match fitTo with
        | Width =>
          if strict_ne originRatio resizedParentRatio then
            let changedRatio := originRatio / resizedParentRatio in
            Some (update_children0
                    (fun childElement =>
                       CSS.set_height
                         (Some (CSS.len_px (height * changedRatio)))
                         (CSS.set_width (Some (CSS.len_px width))
                                        childElement))
                    current)
          else ref
        | Height =>
          if strict_ne originRatio resizedParentRatio then
            let changedRatio := resizedParentRatio / originRatio in
            Some (update_children0
                    (fun childElement =>
                       CSS.set_width
                         (Some (CSS.len_px (width * changedRatio)))
                         (CSS.set_height (Some (CSS.len_px height))
                                         childElement))
                    current)
          else ref
        end
      | _, _ => ref
      end
    end
  end.

(** Lines 47-62 of [resize]: the state updates it queues.  The tests read
    the state [st] of the render the callback belongs to. *)
Definition capture (st : State) (current : HTMLDivElement) : State :=
  let next := st in
  let next :=
    if strict_ne (clientWidth current) 0
       && strict_ne (clientHeight current) 0 then
      let next :=
        if is_null (initialWidth st)
        then setInitialWidth (clientWidth current) next else next in
      let next :=
        if is_null (initialHeight st)
        then setInitialHeight (clientHeight current) next else next in
      next
    else next in
  let next :=
    match parentElement current with
    | Some parent =>
      match getBoundingClientRect parent with
      | Some rect =>
        if is_null (fullParentWidth st) && is_null (fullParentHeight st) then
          setFullParentHeight (rect_height rect)
            (setFullParentWidth (rect_width rect) next)
        else next
      | None => next
      end
    | None => next
    end in
  next.

(** Lines 67-70 of [resize]. *)
Definition reveal (current : HTMLDivElement) : HTMLDivElement :=
  match CSS.visibility (style current) with
  | Some v =>
    if String.eqb v "hidden" then
      set_style
        (CSS.removeProperty_opacity
           (CSS.removeProperty_visibility (style current)))
        current
    else current
  | None => current
  end.

(** [ref.current.style.transform = `scale(${s})`] *)
Definition set_scale (s : float) (current : HTMLDivElement) : HTMLDivElement :=
  set_style (CSS.set_transform (Some (CSS.scale s None)) (style current))
            current.

(** Lines 72-95 of [resize]: the scale and the ratio sync. *)
Definition fit (props : FlexyFitProps) (st : State) (width height : float)
           (current : HTMLDivElement) : option HTMLDivElement :=
  let clientWidth := clientWidth current in
  let clientHeight := clientHeight current in
  match fitTo props, parentElement current with
  | Width, Some parent =>
    let resizedParentHeight := parent_clientHeight parent in
    let resizedChildHeight := height * (clientWidth / width) in
    if negb (overflow props) && gt resizedChildHeight resizedParentHeight
    then
      let ref := Some (set_scale (clientHeight / height) current) in
      if flex props then keepSyncRatio props st Height ref else ref
    else
      let ref := Some (set_scale (clientWidth / width) current) in
      if flex props then keepSyncRatio props st Width ref else ref
  | Height, Some parent =>
    let resizedParentWidth := parent_clientWidth parent in
    let resizedChildWidth := width * (clientHeight / height) in
    if negb (overflow props) && gt resizedChildWidth resizedParentWidth
    then
      let ref := Some (set_scale (clientWidth / width) current) in
      if flex props then keepSyncRatio props st Width ref else ref
    else
      let ref := Some (set_scale (clientHeight / height) current) in
      if flex props then keepSyncRatio props st Height ref else ref
  | _, None => Some current
  end.

(** Lines 97-100 of [resize]. *)
Definition pin_child (ref : option HTMLDivElement) : option HTMLDivElement :=
  match ref with
  | Some current =>
    match children0 current with
    | Some _ =>
      Some (update_children0 (CSS.set_flexShrink (Some "0"%string)) current)
    | None => ref
    end
  | None => ref
  end.

(** [resize], lines 44-101: the state of the next render and the DOM it
    leaves. *)
Definition resize (props : FlexyFitProps) (st : State)
           (ref : option HTMLDivElement) : State * option HTMLDivElement :=
  match ref with
  | None => (st, ref)
  | Some current =>
    let next := capture st current in
    match width props st, height props st with
    | Some width, Some height =>
      match initialWidth st, initialHeight st with
      | Some _, Some _ =>
        let current := reveal current in
        (next, pin_child (fit props st width height current))
      | _, _ => (next, ref)
      end
    | _, _ => (next, ref)
    end
  end.

(** [x && { ... }] spread into the style object, for a nullable number
    [x]: it contributes when [x] is truthy. *)
Definition truthy (a : option float) : bool :=
  match a with
  | Some v => truthy_number v
  | None => false
  end.

(** The [style] object of the returned [div], lines 153-174; a later
    spread or key overrides an earlier one. *)
Definition render (props : FlexyFitProps) (st : State)
  : CSS.CSSStyleDeclaration :=
  let style := CSS.empty in
  let style :=
    if negb (is_null (initialWidth st)) && px props
       && truthy (fullParentWidth st)
    then CSS.set_width (option_map CSS.len_px (fullParentWidth st)) style
    else style in
  let style :=
    if negb (is_null (initialHeight st)) && px props
       && truthy (fullParentHeight st)
    then CSS.set_height (option_map CSS.len_px (fullParentHeight st)) style
    else style in
  let style :=
    if negb (is_null (initialHeight st)) && negb (px props)
    then CSS.set_height (Some (CSS.len_percent 100))
           (CSS.set_width (Some (CSS.len_percent 100)) style)
    else style in
  let style := CSS.set_visibility (Some "hidden"%string) style in
  let style := CSS.set_opacity (Some 0) style in
  let style :=
    CSS.set_transformOrigin
      (Some (nullish_default (verticalOrigin props) vcenter,
             nullish_default (horizontalOrigin props) hcenter)) style in
  let style :=
    if is_hcenter (nullish_default (horizontalOrigin props) hcenter)
    then CSS.set_justifyContent (Some "center"%string)
           (CSS.set_display (Some "flex"%string) style)
    else style in
  let style :=
    if is_vcenter (nullish_default (verticalOrigin props) vcenter)
    then CSS.set_alignItems (Some "center"%string)
           (CSS.set_display (Some "flex"%string) style)
    else style in
  style.

(** *** How React commits a [style] prop

    On the mount every key of the object is written to the element.  On an
    update React compares the object of the previous render with the new
    one key by key and writes only the keys whose value differs (a key that
    disappeared is cleared); a key with the same value in both renders is
    not touched, whatever the element holds by then. *)

Definition Length_eqb (a b : CSS.Length) : bool :=
  match a, b with
  | CSS.len_px x, CSS.len_px y => PrimFloat.eqb x y
  | CSS.len_percent x, CSS.len_percent y => PrimFloat.eqb x y
  | _, _ => false
  end.

Definition origin_eqb (a b : VerticalOrigin * HorizontalOrigin) : bool :=
  match fst a, fst b with
  | top, top | vcenter, vcenter | bottom, bottom =>
    match snd a, snd b with
    | left, left | hcenter, hcenter | right, right => true
    | _, _ => false
    end
  | _, _ => false
  end.

Definition same {A : Type} (eqb : A -> A -> bool) (a b : option A) : bool :=
  match a, b with
  | Some x, Some y => eqb x y
  | None, None => true
  | _, _ => false
  end.

(** One key: the value the element holds after the update. *)
Definition patch {A : Type} (eqb : A -> A -> bool)
           (prev next dom : option A) : option A :=
  if same eqb prev next then dom else next.

(** The keys [transform] and [flexShrink] never occur in the rendered
    object, so an update leaves them to the element. *)
Definition commitUpdate (prev next dom : CSS.CSSStyleDeclaration)
  : CSS.CSSStyleDeclaration :=
  {| CSS.width := patch Length_eqb (CSS.width prev) (CSS.width next)
                        (CSS.width dom);
     CSS.height := patch Length_eqb (CSS.height prev) (CSS.height next)
                         (CSS.height dom);
     CSS.visibility := patch String.eqb (CSS.visibility prev)
                             (CSS.visibility next) (CSS.visibility dom);
     CSS.opacity := patch PrimFloat.eqb (CSS.opacity prev)
                          (CSS.opacity next) (CSS.opacity dom);
     CSS.transform := CSS.transform dom;
     CSS.transformOrigin := patch origin_eqb (CSS.transformOrigin prev)
                                  (CSS.transformOrigin next)
                                  (CSS.transformOrigin dom);
     CSS.display := patch String.eqb (CSS.display prev) (CSS.display next)
                          (CSS.display dom);
     CSS.justifyContent := patch String.eqb (CSS.justifyContent prev)
                                 (CSS.justifyContent next)
                                 (CSS.justifyContent dom);
     CSS.alignItems := patch String.eqb (CSS.alignItems prev)
                             (CSS.alignItems next) (CSS.alignItems dom);
     CSS.flexShrink := CSS.flexShrink dom |}.

(** A re-render from [(props0, st0)] to [(props1, st1)], committed to the
    element. *)
Definition rerender (props0 : FlexyFitProps) (st0 : State)
           (props1 : FlexyFitProps) (st1 : State)
           (ref : option HTMLDivElement) : option HTMLDivElement :=
  option_map
    (fun current =>
       set_style (commitUpdate (render props0 st0) (render props1 st1)
                               (style current)) current)
    ref.

(** *** One mounted engine *)

Record Mounted : Type :=
  { m_props : FlexyFitProps;
    m_state : State;
    m_ref : option HTMLDivElement }.

(** What can happen to a mounted engine.
    - [Layout]: the browser lays the page out again, which gives the
      container and its parent new measured sizes.
    - [ElementResized]: the resize observer of the container calls
      [resize()] (lines 140-142).
    - [ParentResized]: the resize observer of the parent calls
      [parentResize()] (lines 144-146).
    - [PropsChanged]: the parent passes new props; the component renders
      again and the effect calls [resize()] (lines 136-138). *)
Inductive Event : Type :=
| Layout (clientWidth clientHeight : float) (parent : option ParentElement)
| ElementResized
| ParentResized
| PropsChanged (props : FlexyFitProps).

(** The mount: the first render (every state cell is [null]) creates the
    element with the rendered style, the layout measures it, and the
    effect calls [resize()]; the state it set renders again. *)
Definition mount (props : FlexyFitProps) (clientWidth clientHeight : float)
           (parent : option ParentElement)
           (children : list CSS.CSSStyleDeclaration) : Mounted :=
  let current :=
    {| Dom.clientWidth := clientWidth;
       Dom.clientHeight := clientHeight;
       Dom.style := render props initialState;
       Dom.parentElement := parent;
       Dom.children := children |} in
  let (next, ref) := resize props initialState (Some current) in
  {| m_props := props;
     m_state := next;
     m_ref := rerender props initialState props next ref |}.

Definition step (m : Mounted) (ev : Event) : Mounted :=
  match ev with
  | Layout cw ch parent =>
    {| m_props := m_props m;
       m_state := m_state m;
       m_ref := option_map (set_geometry cw ch parent) (m_ref m) |}
  | ElementResized =>
    let (next, ref) := resize (m_props m) (m_state m) (m_ref m) in
    {| m_props := m_props m;
       m_state := next;
       m_ref := rerender (m_props m) (m_state m) (m_props m) next ref |}
  | ParentResized =>
    let next := parentResize (m_state m) (m_ref m) in
    {| m_props := m_props m;
       m_state := next;
       m_ref := rerender (m_props m) (m_state m) (m_props m) next
                         (m_ref m) |}
  | PropsChanged props =>
    let ref := rerender (m_props m) (m_state m) props (m_state m)
                        (m_ref m) in
    let (next, ref) := resize props (m_state m) ref in
    {| m_props := props;
       m_state := next;
       m_ref := rerender props (m_state m) props next ref |}
  end.

Definition run (m : Mounted) (evs : list Event) : Mounted :=
  fold_left step evs m.

(** The container is visually suppressed: hidden and fully transparent. *)
Definition suppressed (m : Mounted) : bool :=
  match m_ref m with
  | Some current =>
    same String.eqb (CSS.visibility (style current)) (Some "hidden"%string)
    && same PrimFloat.eqb (CSS.opacity (style current)) (Some 0)
  | None => false
  end.

(** The suppression is gone: neither property is set on the element. *)
Definition revealed (m : Mounted) : bool :=
  match m_ref m with
  | Some current =>
    is_null (CSS.visibility (style current))
    && is_null (CSS.opacity (style current))
  | None => false
  end.

End FlexyFitInternal.

(** ** The specification's own words, to compare the code with *)

Module Spec.
Import Dom FlexyFitInternal.
Local Open Scope float_scope.

(** Named tiers: sm is [w <= 640], md is [640 < w <= 768], lg is
    [768 < w <= 1024], xl is [1024 < w <= 1280], 2xl is [w > 1280]. *)
Definition band (t : ResponsiveType) (w : Z) : bool :=
  match t with
  | sm => (w <=? 640)%Z
  | md => (640 <? w)%Z && (w <=? 768)%Z
  | lg => (768 <? w)%Z && (w <=? 1024)%Z
  | xl => (1024 <? w)%Z && (w <=? 1280)%Z
  | xxl => (1280 <? w)%Z
  end.


(** One bound check of an explicit range, applied only when the bound is
    set. *)
Definition max_ok (bound : option Z) (v : Z) : bool :=
  match bound with
  | Some m => (v <=? m)%Z
  | None => true
  end.

Definition min_ok (bound : option Z) (v : Z) : bool :=
  match bound with
  | Some m => (m <=? v)%Z
  | None => true
  end.

Definition range_ok (r : option Range) (v : Z) : bool :=
  match r with
  | Some r => max_ok (max r) v && min_ok (min r) v
  | None => true
  end.

(** Explicit ranges: the conjunction of the four bound checks. *)
Definition in_range (b : Breakpoint) (w : FlexyFit.Window) : bool :=
  range_ok (bp_width b) (FlexyFit.innerWidth w)
  && range_ok (bp_height b) (FlexyFit.innerHeight w).

(** The scale algorithm: the factor and the axis that drives the ratio
    sync, for original size [(W, H)], container size [(cw, ch)] and parent
    client size [(pw, ph)]. *)
Definition scale_rule (fitTo : FitTo) (overflow : bool)
           (W H cw ch pw ph : float) : float * FitTo :=
  match fitTo with
  | Width =>
    if negb overflow && gt (H * (cw / W)) ph
    then (ch / H, Height)
    else (cw / W, Width)
  | Height =>
    if negb overflow && gt (W * (ch / H)) pw
    then (cw / W, Width)
    else (ch / H, Height)
  end.

(** Both measured dimensions are nonzero. *)
Definition nonzero (size : float * float) : bool :=
  strict_ne (fst size) 0 && strict_ne (snd size) 0.

(** The first measurement with both dimensions nonzero that a call of
    [resize()] sees along a trace, when the container measures [size] at
    its start. *)
Fixpoint first_measurement (size : float * float) (evs : list Event)
  : option (float * float) :=
  match evs with
  | [] => None
  | Layout cw ch _ :: evs => first_measurement (cw, ch) evs
  | ParentResized :: evs => first_measurement size evs
  | ElementResized :: evs | PropsChanged _ :: evs =>
    if nonzero size then Some size else first_measurement size evs
  end.

(** The original size a mounted engine holds, once both cells are set. *)
Definition originalSize (st : State) : option (float * float) :=
  match initialWidth st, initialHeight st with
  | Some w, Some h => Some (w, h)
  | _, _ => None
  end.

(** Both the original size and the target size are resolved in the render
    described by [props] and [st]. *)
Definition resolved (props : FlexyFitProps) (st : State) : bool :=
  negb (is_null (width props st)) && negb (is_null (height props st))
  && negb (is_null (initialWidth st)) && negb (is_null (initialHeight st)).

(** The event calls [resize()] in a render where both are resolved. *)
Definition resolves (m : Mounted) (ev : Event) : bool :=
  match ev with
  | ElementResized => resolved (m_props m) (m_state m)
  | PropsChanged props => resolved props (m_state m)
  | Layout _ _ _ | ParentResized => false
  end.

(** Some event of the trace, run from [m], does. *)
Fixpoint resolved_during (m : Mounted) (evs : list Event) : bool :=
  match evs with
  | [] => false
  | ev :: evs => resolves m ev || resolved_during (step m ev) evs
  end.

(** How often, along the trace, a step takes the container from
    suppressed to not suppressed, and back. *)
Fixpoint removals (m : Mounted) (evs : list Event) : nat :=
  match evs with
  | [] => 0
  | ev :: evs =>
    (if suppressed m && negb (suppressed (step m ev)) then 1 else 0)
    + removals (step m ev) evs
  end.

Fixpoint reapplications (m : Mounted) (evs : list Event) : nat :=
  match evs with
  | [] => 0
  | ev :: evs =>
    (if negb (suppressed m) && suppressed (step m ev) then 1 else 0)
    + reapplications (step m ev) evs
  end.

(** The two cells of the original size are set together. *)
Definition paired (st : State) : Prop :=
  is_null (initialWidth st) = is_null (initialHeight st).

(** The [visibility] of the element is not ["hidden"]. *)
Definition not_hidden (current : HTMLDivElement) : Prop :=
  match CSS.visibility (style current) with
  | Some v => String.eqb v "hidden" = false
  | None => True
  end.

(** The transform the element carries. *)
Definition transformOf (ref : option HTMLDivElement)
  : option CSS.TransformFunction :=
  match ref with
  | Some current => CSS.transform (style current)
  | None => None
  end.

(** The element is there and is either suppressed or revealed. *)
Definition settled (m : Mounted) : Prop :=
  suppressed m = true /\ revealed m = false
  \/ suppressed m = false /\ revealed m = true.

End Spec.

(** ** Concrete inputs *)

Module Examples.
Import Dom FlexyFitInternal.
Local Open Scope float_scope.

(** Props with nothing set. *)
Definition noProps : FlexyFitProps :=
  {| _width := None; _height := None; _fitTo := None; overflow := false;
     px := false; flex := false; horizontalOrigin := None;
     verticalOrigin := None; responsive := None; breakpoint := None |}.

(** [breakpoint={{ width: { max: 1024 } }}] *)
Definition maxWidth1024 : Breakpoint :=
  {| bp_width := Some {| min := None; max := Some 1024%Z |};
     bp_height := None |}.

Definition viewport (w h : Z) : FlexyFit.Window :=
  {| FlexyFit.innerWidth := w; FlexyFit.innerHeight := h |}.

(** A parent whose client box and bounding box are both [pw] by [ph]. *)
Definition parentBox (pw ph : float) : ParentElement :=
  {| parent_clientWidth := pw; parent_clientHeight := ph;
     getBoundingClientRect :=
       Some {| rect_width := pw; rect_height := ph |} |}.

(** A freshly rendered container of [cw] by [ch] with one child, inside a
    parent of [pw] by [ph]. *)
Definition container (props : FlexyFitProps) (cw ch pw ph : float)
  : HTMLDivElement :=
  {| clientWidth := cw; clientHeight := ch;
     style := render props initialState;
     parentElement := Some (parentBox pw ph);
     children := [CSS.empty] |}.

(** The state once a container of 400 by 200 has been measured. *)
Definition captured400x200 : State :=
  {| initialWidth := Some 400; initialHeight := Some 200;
     fullParentWidth := Some 800; fullParentHeight := Some 100 |}.

End Examples.

(** ** [src/unnamed/part_001]: the single-file build and its gate

    The file holds the same engine (without the [opacity] key) and a public
    component that knows named tiers only: one state cell, no breakpoint. *)

Module Standalone.
Import FlexyFit.

(** [checkResponsive], lines 284-331; the state is the one cell
    [responsiveView]. *)
Definition checkResponsive (props : FlexyFitProps) (window : option Window)
           (responsiveView : bool) : bool :=
  match responsive props with
  | None | Some [] => true
  | Some responsive =>
    match window with
    | None => responsiveView
    | Some window =>
      let w := innerWidth window in
      if includes responsive sm && (w <=? 640)%Z then true
      else if includes responsive md && (w <=? 768)%Z && (w >? 640)%Z
      then true
      else if includes responsive lg && (w <=? 1024)%Z && (w >? 768)%Z
      then true
      else if includes responsive xl && (w <=? 1280)%Z && (w >? 1024)%Z
      then true
      else if includes responsive xxl && (w <=? 1536)%Z && (w >? 1280)%Z
      then true
      else if includes responsive xxl && (w >? 1536)%Z then true
      else false
    end
  end.

(** [{ responsive, children, ...rest } = props] *)
Definition rest (props : FlexyFitProps) : FlexyFitProps :=
  with_responsive None props.

(** The returned element, lines 343-349. *)
Definition FlexyFit (props : FlexyFitProps) (responsiveView : bool)
  : option FlexyFitProps :=
  if responsiveView
  then Some (with_fitTo (Some Width) (rest props))
  else None.

Record Gate : Type :=
  { g_props : FlexyFitProps;
    g_window : option Window;
    g_responsiveView : bool }.

(** The effect, lines 333-341, after the mount ([useState(false)]). *)
Definition mount (props : FlexyFitProps) (window : option Window) : Gate :=
  {| g_props := props;
     g_window := window;
     g_responsiveView := checkResponsive props window false |}.

(** The same events as for the gate of [FlexyFit.tsx]: the listener of the
    effect, or the effect itself after new props. *)
Definition step (g : Gate) (ev : Event) : Gate :=
  match ev with
  | ViewportResized window =>
    match g_window g with
    | Some _ =>
      {| g_props := g_props g;
         g_window := Some window;
         g_responsiveView :=
           checkResponsive (g_props g) (Some window) (g_responsiveView g) |}
    | None => g
    end
  | PropsChanged props =>
    {| g_props := props;
       g_window := g_window g;
       g_responsiveView :=
         checkResponsive props (g_window g) (g_responsiveView g) |}
  end.

Definition run (g : Gate) (evs : list Event) : Gate := fold_left step evs g.

Definition rendered (g : Gate) : option FlexyFitProps :=
  FlexyFit (g_props g) (g_responsiveView g).

End Standalone.

(** ** Vocabulary for the further properties *)

Module Behaviour.
Import Dom FlexyFitInternal.

(** What the tier check decides at width [w]: no tiers requested lets
    everything through. *)
Definition tier_decision (r : option (list ResponsiveType)) (w : Z) : bool :=
  match r with
  | None | Some [] => true
  | Some r => existsb (fun t => Spec.band t w) r
  end.

(** Props that request no tier and carry no breakpoint. *)
Definition ungated (props : FlexyFitProps) : bool :=
  match responsive props with
  | None | Some [] => is_null (breakpoint props)
  | Some (_ :: _) => false
  end.

(** Props that request at least one tier. *)
Definition tiered (props : FlexyFitProps) : bool :=
  match responsive props with
  | Some (_ :: _) => true
  | _ => false
  end.

(** Every props change of the trace satisfies [ok]. *)
Definition props_all (ok : FlexyFitProps -> bool)
           (evs : list FlexyFit.Event) : bool :=
  forallb (fun ev => match ev with
                     | FlexyFit.PropsChanged props => ok props
                     | FlexyFit.ViewportResized _ => true
                     end) evs.

(** What the gate of [FlexyFit.tsx] renders. *)
Definition rendered (g : FlexyFit.Gate) : option FlexyFitProps :=
  FlexyFit.FlexyFit (FlexyFit.g_props g) (FlexyFit.g_state g).

(** The style properties of the container that [resize] has no business
    with. *)
Definition container_frame (a b : CSS.CSSStyleDeclaration) : Prop :=
  CSS.width a = CSS.width b
  /\ CSS.height a = CSS.height b
  /\ CSS.transformOrigin a = CSS.transformOrigin b
  /\ CSS.display a = CSS.display b
  /\ CSS.justifyContent a = CSS.justifyContent b
  /\ CSS.alignItems a = CSS.alignItems b
  /\ CSS.flexShrink a = CSS.flexShrink b.

(** The style properties of the first child that [resize] has no business
    with. *)
Definition child_frame (a b : CSS.CSSStyleDeclaration) : Prop :=
  CSS.visibility a = CSS.visibility b
  /\ CSS.opacity a = CSS.opacity b
  /\ CSS.transform a = CSS.transform b
  /\ CSS.transformOrigin a = CSS.transformOrigin b
  /\ CSS.display a = CSS.display b
  /\ CSS.justifyContent a = CSS.justifyContent b
  /\ CSS.alignItems a = CSS.alignItems b.

(** The children agree but for the sizes and [flexShrink] of the first. *)
Definition children_frame (a b : list CSS.CSSStyleDeclaration) : Prop :=
  match a, b with
  | [], [] => True
  | x :: xs, y :: ys => child_frame x y /\ xs = ys
  | _, _ => False
  end.

(** The two cells of the parent's box are set together. *)
Definition parent_paired (st : State) : Prop :=
  is_null (fullParentWidth st) = is_null (fullParentHeight st).

(** The explicit size of the first child, if there is one. *)
Definition childSize (ref : option HTMLDivElement)
  : option (option CSS.Length * option CSS.Length) :=
  match ref with
  | Some current =>
    match children0 current with
    | Some child => Some (CSS.width child, CSS.height child)
    | None => None
    end
  | None => None
  end.

End Behaviour.

(** * Properties of the visibility gate *)

Section GateProperties.
Import FlexyFit.

Lemma includes_cons (t u : ResponsiveType) (l : list ResponsiveType) :
  includes (u :: l) t = ResponsiveType_eqb t u || includes l t.
Proof. reflexivity. Qed.

(** Membership in some requested band, tier by tier. *)
Lemma existsb_band (r : list ResponsiveType) (w : Z) :
  existsb (fun t => Spec.band t w) r
  = (includes r sm && Spec.band sm w)
    || (includes r md && Spec.band md w)
    || (includes r lg && Spec.band lg w)
    || (includes r xl && Spec.band xl w)
    || (includes r xxl && Spec.band xxl w).
Proof.
  induction r as [|t r IH].
  - reflexivity.
  - cbn [existsb]. rewrite IH, !includes_cons.
    destruct t; cbn [ResponsiveType_eqb orb andb];
      repeat match goal with
             | |- context [includes r ?t] => destruct (includes r t)
             end;
      cbn [orb andb];
      repeat match goal with
             | |- context [Spec.band ?t w] => destruct (Spec.band t w)
             end;
      reflexivity.
Qed.

(** With tiers requested and a viewport, [checkResponsive] stores whether
    the width lies in a requested band. *)
Lemma checkResponsive_band (props : FlexyFitProps) (t : ResponsiveType)
      (r : list ResponsiveType) (window : Window) (st : State) :
  responsive props = Some (t :: r) ->
  checkResponsive props (Some window) st
  = setResponsiveView
      (existsb (fun u => Spec.band u (innerWidth window)) (t :: r)) st.
Proof.
  intros Hr. unfold checkResponsive. rewrite Hr.
  rewrite existsb_band. unfold Spec.band.
  generalize (includes (t :: r) sm) (includes (t :: r) md)
             (includes (t :: r) lg) (includes (t :: r) xl)
             (includes (t :: r) xxl).
  intros b1 b2 b3 b4 b5. cbv zeta.
  rewrite !Z.gtb_ltb.
  destruct (Z.leb_spec (innerWidth window) 640),
           (Z.leb_spec (innerWidth window) 768),
           (Z.leb_spec (innerWidth window) 1024),
           (Z.leb_spec (innerWidth window) 1280),
           (Z.leb_spec (innerWidth window) 1536),
           (Z.ltb_spec 640 (innerWidth window)),
           (Z.ltb_spec 768 (innerWidth window)),
           (Z.ltb_spec 1024 (innerWidth window)),
           (Z.ltb_spec 1280 (innerWidth window)),
           (Z.ltb_spec 1536 (innerWidth window));
    try lia; destruct b1, b2, b3, b4, b5; reflexivity.
Qed.


(** The registered listener never writes [breakpointView]. *)
Lemma checkResponsive_breakpointView (props : FlexyFitProps)
      (window : option Window) (st : State) :
  breakpointView (checkResponsive props window st) = breakpointView st.
Proof.
  unfold checkResponsive.
  destruct (responsive props) as [[|t r]|]; try reflexivity.
  destruct window; try reflexivity. cbv zeta.
  repeat match goal with
         | |- context [if ?c then _ else _] => destruct c
         end; reflexivity.
Qed.

(** With a breakpoint in the props and a viewport, [checkBreakpoint] does
    not write [breakpointView] either. *)
Lemma checkBreakpoint_breakpointView (props : FlexyFitProps) (b : Breakpoint)
      (window : option Window) (st : State) :
  breakpoint props = Some b ->
  breakpointView (checkBreakpoint props window st) = breakpointView st.
Proof.
  intros Hb. unfold checkBreakpoint. rewrite Hb.
  destruct window; reflexivity.
Qed.

(** A gate that is mounted with a breakpoint and keeps one renders
    nothing, whatever the viewport does. *)
Lemma mounted_with_breakpoint_hidden (props : FlexyFitProps) (b : Breakpoint)
      (window : option Window) (ws : list Window) :
  breakpoint props = Some b ->
  visible (run (mount props window) (map ViewportResized ws)) = false.
Proof.
  intros Hb.
  assert (Hinv : forall ws g,
             g_props g = props -> breakpointView (g_state g) = false ->
             visible (run g (map ViewportResized ws)) = false).
  { clear ws. induction ws as [|w ws IH]; intros g Hp Hv.
    - unfold visible, renders, FlexyFit. cbn [run fold_left map].
      rewrite Hv, andb_false_r. reflexivity.
    - cbn [map run fold_left]. apply IH.
      + cbn [step]. destruct (g_window g); exact Hp.
      + cbn [step]. destruct (g_window g); [|exact Hv].
        cbn [g_state]. unfold resizeListener.
        rewrite checkResponsive_breakpointView. exact Hv. }
  apply Hinv.
  - reflexivity.
  - cbn [mount g_state]. unfold effect.
    erewrite checkBreakpoint_breakpointView by exact Hb.
    rewrite checkResponsive_breakpointView. reflexivity.
Qed.

End GateProperties.

Section GateClaims.
Import FlexyFit.




(** C2.  A component mounted with only [width.max = 1024] in its
    breakpoint does not render at a viewport of 800 by 600, although the
    width is within the bound: [checkBreakpoint] computes the conjunction
    of the bound checks ([true] here) and stores it in [responsiveView];
    [breakpointView] keeps its initial [false]. *)
Theorem breakpoint_max_width_not_rendered :
  let props := with_breakpoint (Some Examples.maxWidth1024)
                               Examples.noProps in
  let g := mount props (Some (Examples.viewport 800 600)) in
  visible g = false
  /\ g_state g = {| responsiveView := true; breakpointView := false |}
  /\ condition Examples.maxWidth1024 (Examples.viewport 800 600) = true
  /\ Spec.in_range Examples.maxWidth1024 (Examples.viewport 800 600) = true.
Proof. cbv zeta. repeat split; reflexivity. Qed.

(** C7.  The range check is not run again on a viewport resize.  Props
    without a breakpoint are mounted at 800 by 600, then the props get
    [width.max = 1024], then the viewport grows to 2000 by 600: the
    listener runs the tier check only, and the component is still rendered
    although the width now exceeds the bound. *)
Theorem range_check_not_rerun_on_resize :
  let props := with_breakpoint (Some Examples.maxWidth1024)
                               Examples.noProps in
  let g := run (mount Examples.noProps (Some (Examples.viewport 800 600)))
               [PropsChanged props] in
  let g' := step g (ViewportResized (Examples.viewport 2000 600)) in
  visible g = true
  /\ g_window g' = Some (Examples.viewport 2000 600)
  /\ Spec.in_range Examples.maxWidth1024 (Examples.viewport 2000 600) = false
  /\ condition Examples.maxWidth1024 (Examples.viewport 2000 600) = false
  /\ visible g' = true
  /\ g_state g' = resizeListener props (g_window g') (g_state g)
  /\ resizeListener props (g_window g') (g_state g)
     = checkResponsive props (g_window g') (g_state g).
Proof. cbv zeta. repeat split; reflexivity. Qed.

End GateClaims.

(** * Properties of the fit engine *)

Section EngineLemmas.
Import Dom FlexyFitInternal.
Local Open Scope float_scope.

Lemma same_box_refl (a : HTMLDivElement) : same_box a a.
Proof. repeat split. Qed.

Lemma update_children0_box
      (f : CSS.CSSStyleDeclaration -> CSS.CSSStyleDeclaration)
      (e : HTMLDivElement) :
  same_box (update_children0 f e) e.
Proof.
  unfold update_children0. destruct (children e); repeat split.
Qed.

(** [keepSyncRatio] on a mounted element returns an element again, with
    the same box. *)
Lemma keepSyncRatio_box (props : FlexyFitProps) (st : State) (axis : FitTo)
      (current : HTMLDivElement) :
  exists current',
    keepSyncRatio props st axis (Some current) = Some current'
    /\ same_box current' current.
Proof.
  unfold keepSyncRatio.
  destruct (parentElement current) as [parent|];
    [|exists current; split; [reflexivity|apply same_box_refl]].
  destruct (width props st) as [W|], (height props st) as [H|];
    try (exists current; split; [reflexivity|apply same_box_refl]).
  cbv zeta.
  destruct axis;
    destruct (strict_ne (W / H)
                        (parent_clientWidth parent
                         / parent_clientHeight parent));
    try (exists current; split; [reflexivity|apply same_box_refl]);
    eexists; (split; [reflexivity|apply update_children0_box]).
Qed.

Lemma pin_child_box (current : HTMLDivElement) :
  exists current',
    pin_child (Some current) = Some current' /\ same_box current' current.
Proof.
  unfold pin_child. destruct (children0 current).
  - eexists; split; [reflexivity|apply update_children0_box].
  - exists current; split; [reflexivity|apply same_box_refl].
Qed.

(** With a parent, [fit] writes the factor of the scale rule and syncs
    along the axis of the scale rule. *)
Lemma fit_scale_rule (props : FlexyFitProps) (st : State) (W H : float)
      (current : HTMLDivElement) (parent : ParentElement) :
  parentElement current = Some parent ->
  let rule :=
    Spec.scale_rule (fitTo props) (overflow props) W H
                    (clientWidth current) (clientHeight current)
                    (parent_clientWidth parent)
                    (parent_clientHeight parent) in
  let scaled := set_scale (fst rule) current in
  fit props st W H current
  = if flex props
    then keepSyncRatio props st (snd rule) (Some scaled)
    else Some scaled.
Proof.
  intros Hp. unfold fit, Spec.scale_rule. rewrite Hp. cbv zeta.
  destruct (fitTo props).
  - destruct (negb (overflow props)
              && gt (H * (clientWidth current / W))
                    (parent_clientHeight parent)); reflexivity.
  - destruct (negb (overflow props)
              && gt (W * (clientHeight current / H))
                    (parent_clientWidth parent)); reflexivity.
Qed.

(** Without a parent [fit] writes nothing. *)
Lemma fit_no_parent (props : FlexyFitProps) (st : State) (W H : float)
      (current : HTMLDivElement) :
  parentElement current = None ->
  fit props st W H current = Some current.
Proof.
  intros Hp. unfold fit. rewrite Hp. destruct (fitTo props); reflexivity.
Qed.

(** [fit] returns an element; only [transform] and the children's styles
    may differ. *)
Lemma fit_box (props : FlexyFitProps) (st : State) (W H : float)
      (current : HTMLDivElement) :
  exists current',
    fit props st W H current = Some current'
    /\ clientWidth current' = clientWidth current
    /\ clientHeight current' = clientHeight current
    /\ parentElement current' = parentElement current
    /\ CSS.visibility (style current') = CSS.visibility (style current)
    /\ CSS.opacity (style current') = CSS.opacity (style current).
Proof.
  destruct (parentElement current) as [parent|] eqn:Hp.
  - rewrite (fit_scale_rule props st W H current parent Hp). cbv zeta.
    set (s := fst _). set (axis := snd _).
    destruct (flex props).
    + destruct (keepSyncRatio_box props st axis (set_scale s current))
        as (c & Hc & Hw & Hh & Hs & Hpar).
      exists c. rewrite Hc, Hw, Hh, Hs, Hpar. repeat split; exact Hp.
    + eexists; split; [reflexivity|]. repeat split; try exact Hp.
  - rewrite (fit_no_parent props st W H current Hp).
    exists current. repeat split; try exact Hp.
Qed.

End EngineLemmas.

Section ScaleAndRatio.
Import Dom FlexyFitInternal.
Local Open Scope float_scope.



(** C1.  A fit recomputation with original size [(W, H)], container size
    [(cw, ch)] and parent client size [(pw, ph)].  For the fit axis
    [width]: if overflow is disallowed and [H * (cw / W) > ph], the factor
    is [ch / H] and the ratio sync, when enabled, is driven by the height;
    otherwise the factor is [cw / W] and the sync is driven by the width.
    For the fit axis [height] the roles are swapped.  The factor is written
    as the one-argument [scale], which applies it to both axes. *)
Theorem resize_scale_rule (props : FlexyFitProps) (st : State)
        (current : HTMLDivElement) (parent : ParentElement) (W H : float) :
  width props st = Some W ->
  height props st = Some H ->
  initialWidth st <> None ->
  initialHeight st <> None ->
  parentElement current = Some parent ->
  let rule :=
    Spec.scale_rule (fitTo props) (overflow props) W H
                    (clientWidth current) (clientHeight current)
                    (parent_clientWidth parent)
                    (parent_clientHeight parent) in
  let scaled := set_scale (fst rule) (reveal current) in
  snd (resize props st (Some current))
  = pin_child (if flex props
               then keepSyncRatio props st (snd rule) (Some scaled)
               else Some scaled)
  /\ (exists current',
         snd (resize props st (Some current)) = Some current'
         /\ CSS.transform (style current')
            = Some (CSS.scale (fst rule) None))
  /\ CSS.factors (CSS.scale (fst rule) None) = (fst rule, fst rule).
Proof.
  intros HW HH Hiw Hih Hp. cbv zeta.
  assert (Hrp : parentElement (reveal current) = Some parent).
  { unfold reveal. destruct (CSS.visibility (style current)) as [v|];
      [destruct (String.eqb v "hidden")|]; exact Hp. }
  assert (Hrw : clientWidth (reveal current) = clientWidth current).
  { unfold reveal. destruct (CSS.visibility (style current)) as [v|];
      [destruct (String.eqb v "hidden")|]; reflexivity. }
  assert (Hrh : clientHeight (reveal current) = clientHeight current).
  { unfold reveal. destruct (CSS.visibility (style current)) as [v|];
      [destruct (String.eqb v "hidden")|]; reflexivity. }
  assert (Hres : snd (resize props st (Some current))
                 = pin_child (fit props st W H (reveal current))).
  { unfold resize. rewrite HW, HH.
    destruct (initialWidth st); [|congruence].
    destruct (initialHeight st); [|congruence]. reflexivity. }
  rewrite Hres, (fit_scale_rule props st W H (reveal current) parent Hrp).
  cbv zeta. rewrite Hrw, Hrh.
  set (rule := Spec.scale_rule _ _ _ _ _ _ _ _).
  split; [reflexivity|]. split; [|reflexivity].
  assert (Hscaled : exists c,
             (if flex props
              then keepSyncRatio props st (snd rule)
                     (Some (set_scale (fst rule) (reveal current)))
              else Some (set_scale (fst rule) (reveal current))) = Some c
             /\ style c = style (set_scale (fst rule) (reveal current))).
  { destruct (flex props).
    - destruct (keepSyncRatio_box props st (snd rule)
                  (set_scale (fst rule) (reveal current)))
        as (c & Hc & _ & _ & Hs & _).
      exists c. split; assumption.
    - eexists; split; reflexivity. }
  destruct Hscaled as (c & Hc & Hs). rewrite Hc.
  destruct (pin_child_box c) as (c' & Hc' & _ & _ & Hs' & _).
  exists c'. split; [exact Hc'|]. rewrite Hs', Hs. reflexivity.
Qed.

(** Original size 400 by 200, fit to width, overflow disallowed, container
    800 by 400 in a parent 100 high: the would-be height 400 exceeds 100,
    so the factor is [400 / 200 = 2], by the height. *)
Lemma resize_scale_rule_witness :
  exists current',
    snd (resize (with_flex true Examples.noProps) Examples.captured400x200
                (Some (Examples.container Examples.noProps
                                          800 400 800 100)))
    = Some current'
    /\ CSS.transform (style current') = Some (CSS.scale 2 None).
Proof.
  destruct (resize_scale_rule
              (with_flex true Examples.noProps)
              Examples.captured400x200
              (Examples.container Examples.noProps 800 400 800 100)
              (Examples.parentBox 800 100) 400 200)
    as (_ & (c & Hc & Ht) & _);
    try reflexivity; try discriminate.
  exists c. split; [exact Hc|exact Ht].
Defined.

(** Original size 400 by 200 in a container 800 wide whose parent is high
    enough: the factor is [800 / 400 = 2], by the width, on both axes. *)
Example fit_to_width_example :
  let props := with_fitTo (Some Width) Examples.noProps in
  let ref := Some (Examples.container props 800 400 800 1000) in
  Spec.transformOf (snd (resize props Examples.captured400x200 ref))
  = Some (CSS.scale 2 None)
  /\ CSS.factors (CSS.scale 2 None) = (2, 2).
Proof. cbv zeta. split; reflexivity. Qed.

End ScaleAndRatio.

Section Idempotence.
Import Dom FlexyFitInternal.
Local Open Scope float_scope.

Lemma reveal_box (current : HTMLDivElement) :
  clientWidth (reveal current) = clientWidth current
  /\ clientHeight (reveal current) = clientHeight current
  /\ parentElement (reveal current) = parentElement current
  /\ children (reveal current) = children current.
Proof.
  unfold reveal. destruct (CSS.visibility (style current)) as [v|];
    [destruct (String.eqb v "hidden")|]; repeat split.
Qed.

Lemma reveal_not_hidden (current : HTMLDivElement) :
  Spec.not_hidden (reveal current).
Proof.
  unfold reveal, Spec.not_hidden.
  destruct (CSS.visibility (style current)) as [v|] eqn:Hv.
  - destruct (String.eqb v "hidden") eqn:Hh.
    + exact I.
    + rewrite Hv. exact Hh.
  - rewrite Hv. exact I.
Qed.

Lemma reveal_fixed (current : HTMLDivElement) :
  Spec.not_hidden current -> reveal current = current.
Proof.
  unfold reveal, Spec.not_hidden.
  destruct (CSS.visibility (style current)) as [v|]; [|reflexivity].
  intros ->. reflexivity.
Qed.

(** Once both cells of the original size are set, [resize] does not write
    them, and a second call queues nothing new. *)
Lemma capture_initial (st : State) (current : HTMLDivElement) :
  (forall w, initialWidth st = Some w ->
             initialWidth (capture st current) = Some w)
  /\ (forall h, initialHeight st = Some h ->
                initialHeight (capture st current) = Some h).
Proof.
  unfold capture. cbv zeta.
  split; intros v Hv; rewrite Hv; cbn [is_null];
    destruct (strict_ne (clientWidth current) 0
              && strict_ne (clientHeight current) 0);
    destruct (parentElement current) as [parent|];
    try destruct (getBoundingClientRect parent);
    try destruct (is_null (fullParentWidth st)
                  && is_null (fullParentHeight st));
    destruct (is_null (initialWidth st)), (is_null (initialHeight st));
    cbn; exact Hv.
Qed.

Lemma capture_fixed (st : State) (current current' : HTMLDivElement) :
  initialWidth st <> None ->
  initialHeight st <> None ->
  parentElement current' = parentElement current ->
  capture (capture st current) current' = capture st current.
Proof.
  intros Hw Hh Hp. destruct st as [[iw|] [ih|] fpw fph];
    cbn in Hw, Hh; try congruence.
  unfold capture. rewrite Hp. cbn.
  destruct (strict_ne (clientWidth current) 0
            && strict_ne (clientHeight current) 0),
           (strict_ne (clientWidth current') 0
            && strict_ne (clientHeight current') 0);
    destruct (parentElement current) as [parent|]; try reflexivity;
    destruct (getBoundingClientRect parent); try reflexivity;
    destruct fpw, fph; reflexivity.
Qed.

(** The writes after the scale rule reach a fixed point at once. *)
Lemma sync_fixed (props : FlexyFitProps) (st st' : State) (s : float)
      (axis : FitTo) (x y : HTMLDivElement) (W H : float) :
  width props st = Some W -> height props st = Some H ->
  width props st' = Some W -> height props st' = Some H ->
  pin_child (if flex props
             then keepSyncRatio props st axis (Some (set_scale s x))
             else Some (set_scale s x)) = Some y ->
  pin_child (if flex props
             then keepSyncRatio props st' axis (Some (set_scale s y))
             else Some (set_scale s y)) = Some y.
Proof.
  intros HW HH HW' HH'.
  destruct x as [cw ch sty par chs]. destruct sty.
  unfold keepSyncRatio. rewrite HW, HH, HW', HH'.
  unfold pin_child, children0, update_children0, set_scale, set_style,
    set_children. cbn.
  destruct (flex props); cbn.
  - destruct par as [parent|]; cbn.
    + destruct axis;
        destruct (strict_ne (W / H)
                            (parent_clientWidth parent
                             / parent_clientHeight parent)) eqn:Hne;
        destruct chs as [|[] chs]; cbn; intros [= <-]; cbn;
          rewrite ?Hne; reflexivity.
    + destruct chs as [|[] chs]; cbn; intros [= <-]; reflexivity.
  - destruct chs as [|[] chs]; cbn; intros [= <-]; reflexivity.
Qed.

Lemma pin_child_fixed (x y : HTMLDivElement) :
  pin_child (Some x) = Some y -> pin_child (Some y) = Some y.
Proof.
  destruct x as [cw ch sty par chs].
  unfold pin_child, children0, update_children0, set_children. cbn.
  destruct chs as [|[] chs]; cbn; intros [= <-]; reflexivity.
Qed.

(** With the original size captured, what one run of [resize] leaves is a
    fixed point of [resize]. *)
Lemma resize_fixed (props : FlexyFitProps) (st : State)
      (ref : option HTMLDivElement) :
  initialWidth st <> None ->
  initialHeight st <> None ->
  resize props (fst (resize props st ref)) (snd (resize props st ref))
  = resize props st ref.
Proof.
  intros Hiw Hih.
  destruct ref as [current|]; [|reflexivity].
  destruct (initialWidth st) as [iw|] eqn:Eiw; [|congruence].
  destruct (initialHeight st) as [ih|] eqn:Eih; [|congruence].
  assert (HW : exists W, width props st = Some W).
  { unfold width, nullish. rewrite Eiw. destruct (_width props); eauto. }
  assert (HH : exists H, height props st = Some H).
  { unfold height, nullish. rewrite Eih. destruct (_height props); eauto. }
  destruct HW as [W HW], HH as [H HH].
  destruct (capture_initial st current) as [Hciw Hcih].
  specialize (Hciw iw Eiw). specialize (Hcih ih Eih).
  assert (HW' : width props (capture st current) = Some W).
  { unfold width in *. rewrite Hciw, <- Eiw. exact HW. }
  assert (HH' : height props (capture st current) = Some H).
  { unfold height in *. rewrite Hcih, <- Eih. exact HH. }
  destruct (reveal_box current) as (Rw & Rh & Rp & _).
  destruct (fit_box props st W H (reveal current))
    as (c & Hc & Fw & Fh & Fp & Fv & _).
  destruct (pin_child_box c) as (c1 & Hc1 & Pw & Ph & Ps & Pp).
  assert (Hfirst : resize props st (Some current)
                   = (capture st current, Some c1)).
  { unfold resize. rewrite HW, HH, Eiw, Eih, Hc, Hc1. reflexivity. }
  rewrite Hfirst. cbn [fst snd].
  unfold resize. rewrite HW', HH', Hciw, Hcih.
  rewrite capture_fixed;
    [|rewrite Eiw; discriminate|rewrite Eih; discriminate
     |rewrite Pp, Fp, Rp; reflexivity].
  f_equal.
  assert (Hnh : Spec.not_hidden c1).
  { unfold Spec.not_hidden. rewrite Ps, Fv. apply reveal_not_hidden. }
  rewrite (reveal_fixed c1 Hnh).
  destruct (parentElement (reveal current)) as [parent|] eqn:Hp.
  - assert (Hp1 : parentElement c1 = Some parent)
      by (rewrite Pp, Fp; reflexivity).
    rewrite (fit_scale_rule props _ W H c1 parent Hp1). cbv zeta.
    rewrite (fit_scale_rule props st W H (reveal current) parent Hp) in Hc.
    cbv zeta in Hc.
    rewrite Pw, Ph, Fw, Fh.
    eapply sync_fixed; [exact HW|exact HH|exact HW'|exact HH'|].
    rewrite Hc. exact Hc1.
  - assert (Hp1 : parentElement c1 = None)
      by (rewrite Pp, Fp; reflexivity).
    rewrite (fit_no_parent props _ W H c1 Hp1).
    rewrite (fit_no_parent props st W H (reveal current) Hp) in Hc.
    injection Hc as <-. exact (pin_child_fixed _ _ Hc1).
Qed.

Lemma capture_twice (st : State) (current : HTMLDivElement) :
  capture (capture st current) current = capture st current.
Proof.
  destruct st as [iw ih fpw fph]. unfold capture. cbn.
  destruct (strict_ne (clientWidth current) 0
            && strict_ne (clientHeight current) 0);
    destruct iw, ih; cbn;
    destruct (parentElement current) as [parent|]; try reflexivity;
    destruct (getBoundingClientRect parent); try reflexivity;
    destruct fpw, fph; reflexivity.
Qed.

(** From any state, the second run of [resize] already leaves a fixed
    point: the first run may only capture the original size. *)
Lemma resize_settles (props : FlexyFitProps) (st : State)
      (ref : option HTMLDivElement) :
  let first := resize props st ref in
  let second := resize props (fst first) (snd first) in
  resize props (fst second) (snd second) = second.
Proof.
  cbv zeta.
  destruct (initialWidth (fst (resize props st ref))) as [iw|] eqn:Eiw;
    [destruct (initialHeight (fst (resize props st ref))) as [ih|] eqn:Eih|].
  - apply resize_fixed; congruence.
  - destruct ref as [current|]; [|reflexivity].
    assert (Hst : initialHeight st = None).
    { destruct (initialHeight st) as [h|] eqn:E; [|reflexivity].
      revert Eih. unfold resize. rewrite E.
      destruct (width props st), (height props st),
               (initialWidth st); cbn [fst];
        rewrite (proj2 (capture_initial st current) h E); discriminate. }
    assert (Hfirst : resize props st (Some current)
                     = (capture st current, Some current)).
    { unfold resize. rewrite Hst.
      destruct (width props st), (height props st), (initialWidth st);
        reflexivity. }
    rewrite Hfirst in *. cbn [fst snd] in *.
    assert (Hsecond : resize props (capture st current) (Some current)
                      = (capture st current, Some current)).
    { unfold resize. rewrite Eih, capture_twice.
      destruct (width props (capture st current)),
               (height props (capture st current)),
               (initialWidth (capture st current)); reflexivity. }
    rewrite Hsecond. cbn [fst snd]. exact Hsecond.
  - destruct ref as [current|]; [|reflexivity].
    assert (Hst : initialWidth st = None).
    { destruct (initialWidth st) as [w|] eqn:E; [|reflexivity].
      revert Eiw. unfold resize. rewrite E.
      destruct (width props st), (height props st),
               (initialHeight st); cbn [fst];
        rewrite (proj1 (capture_initial st current) w E); discriminate. }
    assert (Hfirst : resize props st (Some current)
                     = (capture st current, Some current)).
    { unfold resize. rewrite Hst.
      destruct (width props st), (height props st); reflexivity. }
    rewrite Hfirst in *. cbn [fst snd] in *.
    assert (Hsecond : resize props (capture st current) (Some current)
                      = (capture st current, Some current)).
    { unfold resize. rewrite Eiw, capture_twice.
      destruct (width props (capture st current)),
               (height props (capture st current)); reflexivity. }
    rewrite Hsecond. cbn [fst snd]. exact Hsecond.
Qed.

(** C8.  Once the original size is captured, running [resize()] a second
    time on what the first run left (same props, same measurements) changes
    nothing: the same state, the same element, and so the same scale
    factor in [transform]. *)
Theorem resize_idempotent (props : FlexyFitProps) (st : State)
        (ref : option HTMLDivElement) :
  initialWidth st <> None ->
  initialHeight st <> None ->
  let first := resize props st ref in
  let second := resize props (fst first) (snd first) in
  second = first
  /\ Spec.transformOf (snd second) = Spec.transformOf (snd first).
Proof.
  intros Hiw Hih. cbv zeta.
  rewrite (resize_fixed props st ref Hiw Hih). split; reflexivity.
Qed.

Lemma resize_idempotent_witness :
  let props := with_flex true Examples.noProps in
  let ref := Some (Examples.container props 800 400 800 100) in
  let first := resize props Examples.captured400x200 ref in
  resize props (fst first) (snd first) = first.
Proof.
  refine (proj1 (resize_idempotent
                   (with_flex true Examples.noProps)
                   Examples.captured400x200
                   (Some (Examples.container
                            (with_flex true Examples.noProps)
                            800 400 800 100)) _ _));
    discriminate.
Defined.

End Idempotence.

Section Overrides.
Import Dom FlexyFitInternal.
Local Open Scope float_scope.

(** With both overrides in the props, nothing after the guards of
    [resize] reads the state. *)
Lemma fit_overrides (props : FlexyFitProps) (st st' : State) (W H : float)
      (current : HTMLDivElement) :
  _width props = Some W ->
  _height props = Some H ->
  fit props st W H current = fit props st' W H current.
Proof.
  intros HW HH. unfold fit, keepSyncRatio, width, height.
  rewrite HW, HH. reflexivity.
Qed.

(** C9, as the claim has it, fails: with the overrides 400 by 200 and a
    container that measures 800 by 400, the measurement is still stored,
    and the run that has no captured size yet computes no transform, while
    the same run with a captured size scales by 2. *)
Lemma overrides_do_not_skip_measurement :
  let props := with_size (Some 400) (Some 200) Examples.noProps in
  let ref := Some (Examples.container props 800 400 800 1000) in
  Spec.originalSize (fst (resize props initialState ref)) = Some (800, 400)
  /\ Spec.transformOf (snd (resize props initialState ref)) = None
  /\ Spec.transformOf (snd (resize props Examples.captured400x200 ref))
     = Some (CSS.scale 2 None).
Proof. cbv zeta. repeat split; reflexivity. Qed.

(** C9, amended.  With both overrides [W] and [H] in the props, the
    original size the computation uses is [(W, H)], whatever was measured:
    the result of a run with a captured size does not depend on the values
    captured.  The element is still measured: the first measurement with
    both dimensions nonzero is stored.  And a run in which the measured size
    has not been captured yet leaves the element as it is. *)
Theorem overrides_used_once_captured (props : FlexyFitProps) (st : State)
        (current : HTMLDivElement) (W H : float) :
  _width props = Some W ->
  _height props = Some H ->
  (width props st = Some W /\ height props st = Some H)
  /\ (initialWidth st <> None -> initialHeight st <> None ->
      snd (resize props st (Some current))
      = pin_child (fit props initialState W H (reveal current)))
  /\ (initialWidth st = None -> initialHeight st = None ->
      Spec.nonzero (clientWidth current, clientHeight current) = true ->
      Spec.originalSize (fst (resize props st (Some current)))
      = Some (clientWidth current, clientHeight current))
  /\ (initialWidth st = None \/ initialHeight st = None ->
      snd (resize props st (Some current)) = Some current).
Proof.
  intros HW HH.
  assert (Hw : width props st = Some W)
    by (unfold width; rewrite HW; reflexivity).
  assert (Hh : height props st = Some H)
    by (unfold height; rewrite HH; reflexivity).
  split; [split; assumption|]. split; [|split].
  - intros Hiw Hih. unfold resize. rewrite Hw, Hh.
    destruct (initialWidth st); [|congruence].
    destruct (initialHeight st); [|congruence].
    cbn [snd]. rewrite (fit_overrides props st initialState W H _ HW HH).
    reflexivity.
  - intros Hiw Hih Hnz. unfold resize. rewrite Hw, Hh, Hiw. cbn [fst].
    unfold Spec.nonzero in Hnz. cbn [fst snd] in Hnz.
    unfold capture, Spec.originalSize. rewrite Hnz, Hiw, Hih. cbn [is_null].
    destruct (parentElement current) as [parent|]; [|reflexivity].
    destruct (getBoundingClientRect parent); [|reflexivity].
    destruct (is_null (fullParentWidth st)
              && is_null (fullParentHeight st)); reflexivity.
  - intros Hnone. unfold resize. rewrite Hw, Hh.
    destruct Hnone as [Hn|Hn]; rewrite Hn;
      [|destruct (initialWidth st)]; reflexivity.
Qed.

Lemma overrides_used_once_captured_witness :
  let props := with_size (Some 400) (Some 200) Examples.noProps in
  let current := Examples.container props 800 400 800 1000 in
  snd (resize props Examples.captured400x200 (Some current))
  = pin_child (fit props initialState 400 200 (reveal current))
  /\ Spec.originalSize (fst (resize props initialState (Some current)))
     = Some (800, 400)
  /\ snd (resize props initialState (Some current)) = Some current.
Proof.
  destruct (overrides_used_once_captured
              (with_size (Some 400) (Some 200) Examples.noProps)
              Examples.captured400x200
              (Examples.container
                 (with_size (Some 400) (Some 200) Examples.noProps)
                 800 400 800 1000) 400 200 eq_refl eq_refl)
    as (_ & Hfit & _ & _).
  destruct (overrides_used_once_captured
              (with_size (Some 400) (Some 200) Examples.noProps)
              initialState
              (Examples.container
                 (with_size (Some 400) (Some 200) Examples.noProps)
                 800 400 800 1000) 400 200 eq_refl eq_refl)
    as (_ & _ & Hcap & Hskip).
  cbv zeta. split; [|split].
  - apply Hfit; discriminate.
  - apply Hcap; reflexivity.
  - apply Hskip. left. reflexivity.
Defined.

(** C10.  Whatever props the public component receives, the props it hands
    to the engine carry the fit axis [width]: the caller's [fitTo] has no
    influence on them, the guard [fitTo === "height"] of the engine is
    false, and the factor the engine writes is the one of the width
    rule. *)
Theorem public_fit_axis_is_width (props : FlexyFitProps)
        (gate : FlexyFit.State) (internal : FlexyFitProps) :
  FlexyFit.FlexyFit props gate = Some internal ->
  _fitTo internal = Some Width
  /\ fitTo internal = Width
  /\ FitTo_eqb (fitTo internal) Height = false
  /\ (forall f : option FitTo,
         FlexyFit.FlexyFit (with_fitTo f props) gate = Some internal)
  /\ (forall (st : State) (W H : float) (current : HTMLDivElement)
             (parent : ParentElement),
         parentElement current = Some parent ->
         let s :=
           if negb (overflow internal)
              && gt (H * (clientWidth current / W))
                    (parent_clientHeight parent)
           then clientHeight current / H
           else clientWidth current / W in
         exists current',
           fit internal st W H current = Some current'
           /\ CSS.transform (style current') = Some (CSS.scale s None)).
Proof.
  unfold FlexyFit.FlexyFit.
  destruct (FlexyFit.responsiveView gate && FlexyFit.breakpointView gate);
    [|discriminate].
  intros [= <-]. repeat split.
  intros st W H current parent Hp. cbv zeta.
  rewrite (fit_scale_rule _ st W H current parent Hp). cbv zeta.
  unfold Spec.scale_rule.
  cbn [fitTo with_fitTo _fitTo nullish_default overflow].
  set (c := negb _ && gt _ _). destruct c; cbn [fst snd].
  - destruct (flex _).
    + destruct (keepSyncRatio_box
                  (with_fitTo (Some Width) (FlexyFit.rest props)) st Height
                  (set_scale (clientHeight current / H) current))
        as (c' & Hc' & _ & _ & Hs & _).
      exists c'. split; [exact Hc'|]. rewrite Hs. reflexivity.
    + eexists. split; reflexivity.
  - destruct (flex _).
    + destruct (keepSyncRatio_box
                  (with_fitTo (Some Width) (FlexyFit.rest props)) st Width
                  (set_scale (clientWidth current / W) current))
        as (c' & Hc' & _ & _ & Hs & _).
      exists c'. split; [exact Hc'|]. rewrite Hs. reflexivity.
    + eexists. split; reflexivity.
Qed.

Lemma public_fit_axis_is_width_witness :
  fitTo (with_fitTo (Some Width)
                    (FlexyFit.rest (with_fitTo (Some Height)
                                               Examples.noProps)))
  = Width.
Proof.
  refine (proj1 (proj2 (public_fit_axis_is_width
                          (with_fitTo (Some Height) Examples.noProps)
                          {| FlexyFit.responsiveView := true;
                             FlexyFit.breakpointView := true |}
                          _ _))).
  reflexivity.
Defined.

End Overrides.

(** * One mount of the engine over time *)

Section MountLemmas.
Import Dom FlexyFitInternal.
Local Open Scope float_scope.

(** Every render asks for a hidden, transparent container. *)
Lemma render_suppressed (props : FlexyFitProps) (st : State) :
  CSS.visibility (render props st) = Some "hidden"%string
  /\ CSS.opacity (render props st) = Some 0.
Proof.
  unfold render. cbv zeta.
  repeat match goal with
         | |- context [if ?c then _ else _] => destruct c
         end; split; reflexivity.
Qed.

(** So an update never writes [visibility] or [opacity]; and it never
    touches the measured box. *)
Lemma rerender_keeps (props0 : FlexyFitProps) (st0 : State)
      (props1 : FlexyFitProps) (st1 : State) (current : HTMLDivElement) :
  exists current',
    rerender props0 st0 props1 st1 (Some current) = Some current'
    /\ clientWidth current' = clientWidth current
    /\ clientHeight current' = clientHeight current
    /\ parentElement current' = parentElement current
    /\ CSS.visibility (style current') = CSS.visibility (style current)
    /\ CSS.opacity (style current') = CSS.opacity (style current).
Proof.
  eexists. split; [reflexivity|]. repeat split.
  - cbn [style set_style commitUpdate CSS.visibility]. unfold patch.
    rewrite (proj1 (render_suppressed props0 st0)).
    rewrite (proj1 (render_suppressed props1 st1)). reflexivity.
  - cbn [style set_style commitUpdate CSS.opacity]. unfold patch.
    rewrite (proj2 (render_suppressed props0 st0)).
    rewrite (proj2 (render_suppressed props1 st1)). reflexivity.
Qed.

Lemma resolved_true (props : FlexyFitProps) (st : State) :
  Spec.resolved props st = true ->
  exists W H iw ih,
    width props st = Some W /\ height props st = Some H
    /\ initialWidth st = Some iw /\ initialHeight st = Some ih.
Proof.
  unfold Spec.resolved.
  destruct (width props st) as [W|], (height props st) as [H|],
           (initialWidth st) as [iw|], (initialHeight st) as [ih|];
    cbn; try discriminate.
  intros _. exists W, H, iw, ih. repeat split.
Qed.

(** The state [resize] leaves is the one of lines 47-62, whatever the
    guards after them decide. *)
Lemma resize_state (props : FlexyFitProps) (st : State)
      (current : HTMLDivElement) :
  fst (resize props st (Some current)) = capture st current.
Proof.
  unfold resize.
  destruct (width props st), (height props st), (initialWidth st),
           (initialHeight st); reflexivity.
Qed.

Lemma resize_unresolved (props : FlexyFitProps) (st : State)
      (current : HTMLDivElement) :
  Spec.resolved props st = false ->
  snd (resize props st (Some current)) = Some current.
Proof.
  unfold Spec.resolved, resize.
  destruct (width props st), (height props st), (initialWidth st),
           (initialHeight st); cbn; try reflexivity; discriminate.
Qed.

Lemma resize_resolved (props : FlexyFitProps) (st : State)
      (current : HTMLDivElement) :
  Spec.resolved props st = true ->
  exists W H,
    snd (resize props st (Some current))
    = pin_child (fit props st W H (reveal current)).
Proof.
  intros Hr. destruct (resolved_true props st Hr)
    as (W & H & iw & ih & HW & HH & Hiw & Hih).
  exists W, H. unfold resize. rewrite HW, HH, Hiw, Hih. reflexivity.
Qed.

(** What a call of [resize()] leaves of the element: the measured box is
    the same, and [visibility] and [opacity] are those of [reveal] when
    the sizes are resolved, and untouched otherwise. *)
Lemma resize_keeps (props : FlexyFitProps) (st : State)
      (current : HTMLDivElement) :
  exists current',
    snd (resize props st (Some current)) = Some current'
    /\ clientWidth current' = clientWidth current
    /\ clientHeight current' = clientHeight current
    /\ parentElement current' = parentElement current
    /\ CSS.visibility (style current')
       = CSS.visibility
           (style (if Spec.resolved props st
                   then reveal current else current))
    /\ CSS.opacity (style current')
       = CSS.opacity
           (style (if Spec.resolved props st
                   then reveal current else current)).
Proof.
  destruct (Spec.resolved props st) eqn:Hr.
  - destruct (resize_resolved props st current Hr) as (W & H & Hres).
    destruct (fit_box props st W H (reveal current))
      as (c & Hc & Fw & Fh & Fp & Fv & Fo).
    destruct (pin_child_box c) as (c1 & Hc1 & Pw & Ph & Ps & Pp).
    destruct (reveal_box current) as (Rw & Rh & Rp & _).
    exists c1. rewrite Hres, Hc, Hc1, Pw, Ph, Pp, Ps, Fw, Fh, Fp, Fv, Fo.
    repeat split; assumption.
  - exists current. rewrite (resize_unresolved props st current Hr).
    repeat split.
Qed.

(** A mounted engine keeps its element. *)
Lemma step_ref (m : Mounted) (ev : Event) (current : HTMLDivElement) :
  m_ref m = Some current ->
  exists current',
    m_ref (step m ev) = Some current'
    /\ (clientWidth current', clientHeight current')
       = match ev with
         | Layout cw ch _ => (cw, ch)
         | _ => (clientWidth current, clientHeight current)
         end.
Proof.
  intros Hm. destruct ev as [cw ch parent| | |props]; cbn [step].
  - rewrite Hm. eexists. split; reflexivity.
  - rewrite Hm.
    destruct (resize_keeps (m_props m) (m_state m) current)
      as (c & Hc & Hw & Hh & _).
    destruct (resize (m_props m) (m_state m) (Some current)) as [next ref].
    cbn [snd] in Hc. subst ref. cbn [m_ref].
    destruct (rerender_keeps (m_props m) (m_state m) (m_props m) next c)
      as (c' & Hc' & Hw' & Hh' & _).
    exists c'. rewrite Hc', Hw', Hh', Hw, Hh. split; reflexivity.
  - rewrite Hm. cbn [m_ref]. eexists. split; reflexivity.
  - rewrite Hm.
    destruct (rerender_keeps (m_props m) (m_state m) props (m_state m)
                             current)
      as (c0 & Hc0 & Hw0 & Hh0 & _).
    rewrite Hc0.
    destruct (resize_keeps props (m_state m) c0) as (c & Hc & Hw & Hh & _).
    destruct (resize props (m_state m) (Some c0)) as [next ref].
    cbn [snd] in Hc. subst ref. cbn [m_ref].
    destruct (rerender_keeps props (m_state m) props next c)
      as (c' & Hc' & Hw' & Hh' & _).
    exists c'. rewrite Hc', Hw', Hh', Hw, Hh, Hw0, Hh0. split; reflexivity.
Qed.

End MountLemmas.

Section OriginalSize.
Import Dom FlexyFitInternal.
Local Open Scope float_scope.

Lemma capture_original (st : State) (current : HTMLDivElement) :
  Spec.paired st ->
  Spec.paired (capture st current)
  /\ Spec.originalSize (capture st current)
     = match Spec.originalSize st with
       | Some size => Some size
       | None =>
         if Spec.nonzero (clientWidth current, clientHeight current)
         then Some (clientWidth current, clientHeight current)
         else None
       end.
Proof.
  unfold Spec.paired.
  destruct st as [[iw|] [ih|] fpw fph]; cbn; try discriminate; intros _;
    unfold capture, Spec.originalSize, Spec.nonzero; cbn;
    destruct (strict_ne (clientWidth current) 0
              && strict_ne (clientHeight current) 0);
    destruct (parentElement current) as [parent|];
    try destruct (getBoundingClientRect parent);
    try destruct fpw; try destruct fph; cbn; split; reflexivity.
Qed.

Lemma parentResize_initial (st : State) (ref : option HTMLDivElement) :
  initialWidth (parentResize st ref) = initialWidth st
  /\ initialHeight (parentResize st ref) = initialHeight st.
Proof.
  unfold parentResize. destruct ref as [current|]; [|split; reflexivity].
  destruct (parentElement current) as [parent|]; [|split; reflexivity].
  destruct (getBoundingClientRect parent); split; reflexivity.
Qed.

(** The state a step leaves, for a mounted element. *)
Lemma step_state (m : Mounted) (ev : Event) (current : HTMLDivElement) :
  m_ref m = Some current ->
  match ev with
  | ElementResized | PropsChanged _ =>
    exists current',
    m_state (step m ev) = capture (m_state m) current'
    /\ clientWidth current' = clientWidth current
    /\ clientHeight current' = clientHeight current
  | Layout _ _ _ => m_state (step m ev) = m_state m
  | ParentResized =>
    m_state (step m ev) = parentResize (m_state m) (m_ref m)
  end.
Proof.
  intros Hm. destruct ev as [cw ch parent| | |props]; cbn [step].
  - reflexivity.
  - rewrite Hm. exists current.
    rewrite (surjective_pairing (resize _ _ _)), resize_state.
    repeat split.
  - reflexivity.
  - rewrite Hm.
    destruct (rerender_keeps (m_props m) (m_state m) props (m_state m)
                             current)
      as (c0 & Hc0 & Hw0 & Hh0 & _).
    rewrite Hc0. exists c0.
    rewrite (surjective_pairing (resize _ _ _)), resize_state.
    repeat split; assumption.
Qed.

Lemma step_original (m : Mounted) (ev : Event) (current : HTMLDivElement) :
  m_ref m = Some current ->
  Spec.paired (m_state m) ->
  Spec.paired (m_state (step m ev))
  /\ Spec.originalSize (m_state (step m ev))
     = match Spec.originalSize (m_state m) with
       | Some size => Some size
       | None =>
         match ev with
         | ElementResized | PropsChanged _ =>
           if Spec.nonzero (clientWidth current, clientHeight current)
           then Some (clientWidth current, clientHeight current)
           else None
         | Layout _ _ _ | ParentResized => None
         end
       end.
Proof.
  intros Hm Hp. pose proof (step_state m ev current Hm) as Hs.
  destruct ev as [cw ch parent| | |props].
  - rewrite Hs. split; [exact Hp|].
    destruct (Spec.originalSize (m_state m)); reflexivity.
  - destruct Hs as (c & -> & Hw & Hh).
    destruct (capture_original (m_state m) c Hp) as [Hp' Ho].
    split; [exact Hp'|]. rewrite Ho, Hw, Hh. reflexivity.
  - rewrite Hs.
    destruct (parentResize_initial (m_state m) (m_ref m)) as [Hw Hh].
    unfold Spec.originalSize, Spec.paired in *. rewrite Hw, Hh.
    split; [exact Hp|].
    destruct (initialWidth (m_state m)), (initialHeight (m_state m));
      reflexivity.
  - destruct Hs as (c & -> & Hw & Hh).
    destruct (capture_original (m_state m) c Hp) as [Hp' Ho].
    split; [exact Hp'|]. rewrite Ho, Hw, Hh. reflexivity.
Qed.

(** Along a trace the original size is the one already held or else the
    first nonzero measurement a call of [resize()] sees. *)
Lemma run_original (evs : list Event) :
  forall (m : Mounted) (current : HTMLDivElement),
    m_ref m = Some current ->
    Spec.paired (m_state m) ->
    Spec.originalSize (m_state (run m evs))
    = match Spec.originalSize (m_state m) with
      | Some size => Some size
      | None =>
        Spec.first_measurement (clientWidth current, clientHeight current)
                               evs
      end.
Proof.
  induction evs as [|ev evs IH]; intros m current Hm Hp.
  - cbn [run fold_left Spec.first_measurement].
    destruct (Spec.originalSize (m_state m)); reflexivity.
  - cbn [run fold_left]. fold (run (step m ev) evs).
    destruct (step_ref m ev current Hm) as (c' & Hc' & Hg).
    destruct (step_original m ev current Hm Hp) as [Hp' Ho].
    rewrite (IH (step m ev) c' Hc' Hp'), Ho.
    destruct (Spec.originalSize (m_state m)) as [size|]; [reflexivity|].
    destruct ev as [cw ch parent| | |props];
      injection Hg as -> ->; cbn [Spec.first_measurement];
      try reflexivity;
      destruct (Spec.nonzero (clientWidth current, clientHeight current));
      reflexivity.
Qed.

(** A cell of the original size that is set keeps its value. *)
Lemma step_frozen (m : Mounted) (ev : Event) :
  (forall w, initialWidth (m_state m) = Some w ->
             initialWidth (m_state (step m ev)) = Some w)
  /\ (forall h, initialHeight (m_state m) = Some h ->
                initialHeight (m_state (step m ev)) = Some h).
Proof.
  destruct (m_ref m) as [current|] eqn:Hm.
  - pose proof (step_state m ev current Hm) as Hs.
    destruct ev as [cw ch parent| | |props].
    + rewrite Hs. split; intros v Hv; exact Hv.
    + destruct Hs as (c & -> & _). apply capture_initial.
    + rewrite Hs.
      destruct (parentResize_initial (m_state m) (m_ref m)) as [-> ->].
      split; intros v Hv; exact Hv.
    + destruct Hs as (c & -> & _). apply capture_initial.
  - destruct ev as [cw ch parent| | |props]; cbn [step]; rewrite ?Hm;
      cbn; split; intros v Hv; exact Hv.
Qed.

Lemma run_frozen (evs : list Event) :
  forall (m : Mounted) (w h : float),
    initialWidth (m_state m) = Some w ->
    initialHeight (m_state m) = Some h ->
    initialWidth (m_state (run m evs)) = Some w
    /\ initialHeight (m_state (run m evs)) = Some h.
Proof.
  induction evs as [|ev evs IH]; intros m w h Hw Hh.
  - split; assumption.
  - cbn [run fold_left]. fold (run (step m ev) evs).
    destruct (step_frozen m ev) as [Fw Fh].
    apply IH; [apply Fw|apply Fh]; assumption.
Qed.

(** The mount is one call of [resize()] in the first render. *)
Lemma mount_shape (props : FlexyFitProps) (cw ch : float)
      (parent : option ParentElement)
      (children : list CSS.CSSStyleDeclaration) :
  let current :=
    {| clientWidth := cw; clientHeight := ch;
       style := render props initialState;
       parentElement := parent; Dom.children := children |} in
  m_props (mount props cw ch parent children) = props
  /\ m_state (mount props cw ch parent children)
     = capture initialState current
  /\ m_ref (mount props cw ch parent children)
     = rerender props initialState props (capture initialState current)
                (Some current).
Proof.
  cbv zeta. unfold mount, resize. cbn [initialWidth initialState].
  destruct (width props initialState), (height props initialState);
    repeat split.
Qed.

(** C5.  From the mount on, the original size is the first measurement
    with both dimensions nonzero that a call of [resize()] sees (the call
    of the mount included), and nothing while there was none; and once both
    [initialWidth] and [initialHeight] are set they keep their values over
    every further event. *)
Theorem original_size_captured_once (props : FlexyFitProps) (cw ch : float)
        (parent : option ParentElement)
        (children : list CSS.CSSStyleDeclaration) (evs : list Event) :
  Spec.originalSize
    (m_state (run (mount props cw ch parent children) evs))
  = Spec.first_measurement (cw, ch) (ElementResized :: evs)
  /\ (forall (m : Mounted) (evs' : list Event) (w h : float),
         initialWidth (m_state m) = Some w ->
         initialHeight (m_state m) = Some h ->
         initialWidth (m_state (run m evs')) = Some w
         /\ initialHeight (m_state (run m evs')) = Some h).
Proof.
  split; [|intros m evs' w h; apply run_frozen].
  destruct (mount_shape props cw ch parent children) as (_ & Hst & Href).
  cbv zeta in Hst, Href.
  set (current := {| clientWidth := cw; clientHeight := ch;
                     style := render props initialState;
                     parentElement := parent;
                     Dom.children := children |}) in *.
  destruct (rerender_keeps props initialState props
                           (capture initialState current) current)
    as (c & Hc & Hw & Hh & _).
  rewrite Hc in Href.
  destruct (capture_original initialState current eq_refl) as [Hp Ho].
  rewrite <- Hst in Hp, Ho.
  rewrite (run_original evs _ c Href Hp), Ho, Hw, Hh.
  cbn [Spec.originalSize initialState initialWidth initialHeight
       Spec.first_measurement clientWidth clientHeight current].
  destruct (Spec.nonzero (cw, ch)); reflexivity.
Qed.

Lemma original_size_captured_once_witness :
  let m := mount Examples.noProps 400 200
                 (Some (Examples.parentBox 800 100)) [CSS.empty] in
  let evs := [Layout 800 100 (Some (Examples.parentBox 800 100));
              ElementResized; ParentResized;
              Layout 1000 125 (Some (Examples.parentBox 1000 125));
              ElementResized] in
  initialWidth (m_state (run m evs)) = Some 400
  /\ initialHeight (m_state (run m evs)) = Some 200.
Proof.
  cbv zeta.
  refine (proj2 (original_size_captured_once
                   Examples.noProps 400 200 None [] [])
                _ _ 400 200 _ _); reflexivity.
Defined.

End OriginalSize.

Section Suppression.
Import Dom FlexyFitInternal.
Local Open Scope float_scope.

Lemma reveal_style (current : HTMLDivElement) :
  let hidden :=
    match CSS.visibility (style current) with
    | Some v => String.eqb v "hidden"
    | None => false
    end in
  CSS.visibility (style (reveal current))
  = (if hidden then None else CSS.visibility (style current))
  /\ CSS.opacity (style (reveal current))
     = (if hidden then None else CSS.opacity (style current)).
Proof.
  cbv zeta. unfold reveal.
  destruct (CSS.visibility (style current)) as [v|] eqn:Hv.
  - destruct (String.eqb v "hidden").
    + split; reflexivity.
    + rewrite Hv. split; reflexivity.
  - rewrite Hv. split; reflexivity.
Qed.

(** What a step leaves of [visibility] and [opacity]. *)
Lemma step_style (m : Mounted) (ev : Event) (current : HTMLDivElement) :
  m_ref m = Some current ->
  exists current',
    m_ref (step m ev) = Some current'
    /\ CSS.visibility (style current')
       = CSS.visibility
           (style (if Spec.resolves m ev then reveal current else current))
    /\ CSS.opacity (style current')
       = CSS.opacity
           (style (if Spec.resolves m ev then reveal current else current)).
Proof.
  intros Hm. destruct ev as [cw ch parent| | |props];
    cbn [step Spec.resolves].
  - rewrite Hm. eexists. repeat split.
  - rewrite Hm.
    destruct (resize_keeps (m_props m) (m_state m) current)
      as (c & Hc & _ & _ & _ & Hv & Ho).
    destruct (resize (m_props m) (m_state m) (Some current)) as [next ref].
    cbn [snd] in Hc. subst ref. cbn [m_ref].
    destruct (rerender_keeps (m_props m) (m_state m) (m_props m) next c)
      as (c' & Hc' & _ & _ & _ & Hv' & Ho').
    exists c'. rewrite Hc', Hv', Ho', Hv, Ho. repeat split.
  - rewrite Hm. cbn [m_ref].
    destruct (rerender_keeps (m_props m) (m_state m) (m_props m)
                (parentResize (m_state m) (Some current)) current)
      as (c' & Hc' & _ & _ & _ & Hv' & Ho').
    exists c'. rewrite Hc', Hv', Ho'. repeat split.
  - rewrite Hm.
    destruct (rerender_keeps (m_props m) (m_state m) props (m_state m)
                             current)
      as (c0 & Hc0 & _ & _ & _ & Hv0 & Ho0).
    rewrite Hc0.
    destruct (resize_keeps props (m_state m) c0)
      as (c & Hc & _ & _ & _ & Hv & Ho).
    destruct (resize props (m_state m) (Some c0)) as [next ref].
    cbn [snd] in Hc. subst ref. cbn [m_ref].
    destruct (rerender_keeps props (m_state m) props next c)
      as (c' & Hc' & _ & _ & _ & Hv' & Ho').
    exists c'. rewrite Hc', Hv', Ho', Hv, Ho.
    destruct (Spec.resolved props (m_state m)).
    + destruct (reveal_style c0) as [-> ->].
      destruct (reveal_style current) as [-> ->].
      rewrite Hv0, Ho0. repeat split.
    + rewrite Hv0, Ho0. repeat split.
Qed.

(** A step removes the suppression exactly when it resolves, and never
    brings it back. *)
Lemma step_settled (m : Mounted) (ev : Event) :
  Spec.settled m ->
  Spec.settled (step m ev)
  /\ suppressed (step m ev) = suppressed m && negb (Spec.resolves m ev)
  /\ revealed (step m ev) = revealed m || Spec.resolves m ev.
Proof.
  unfold Spec.settled, suppressed, revealed.
  destruct (m_ref m) as [current|] eqn:Hm;
    [|intros [[H _]|[_ H]]; discriminate].
  destruct (step_style m ev current Hm) as (c' & -> & Hv & Ho).
  rewrite Hv, Ho.
  destruct (reveal_style current) as [Rv Ro]. cbv zeta in Rv, Ro.
  destruct (Spec.resolves m ev); [rewrite Rv, Ro|];
    destruct (CSS.visibility (style current)) as [v|];
    destruct (CSS.opacity (style current)) as [o|]; cbn;
    try destruct (String.eqb v "hidden"); cbn;
    try destruct (PrimFloat.eqb o 0); cbn;
    intros [[H1 H2]|[H1 H2]]; try discriminate; auto.
Qed.

Lemma run_settled (evs : list Event) :
  forall m : Mounted,
    Spec.settled m ->
    suppressed (run m evs)
    = suppressed m && negb (Spec.resolved_during m evs)
    /\ revealed (run m evs) = revealed m || Spec.resolved_during m evs
    /\ Spec.removals m evs
       = (if suppressed m && Spec.resolved_during m evs then 1 else 0)%nat
    /\ Spec.reapplications m evs = 0%nat.
Proof.
  induction evs as [|ev evs IH]; intros m Hs.
  - cbn. rewrite andb_true_r, andb_false_r, orb_false_r. repeat split.
  - cbn [run fold_left Spec.resolved_during Spec.removals
         Spec.reapplications].
    fold (run (step m ev) evs).
    destruct (step_settled m ev Hs) as (Hs' & Hsup & Hrev).
    destruct (IH (step m ev) Hs') as (I1 & I2 & I3 & I4).
    rewrite I1, I2, I3, I4, Hsup, Hrev.
    destruct Hs as [[-> ->]|[-> ->]];
      destruct (Spec.resolves m ev),
               (Spec.resolved_during (step m ev) evs);
      repeat split; reflexivity.
Qed.

(** A trace in which some call of [resize()] found the sizes resolved has
    captured an original size. *)
Lemma resolved_during_captured (evs : list Event) :
  forall m : Mounted,
    Spec.resolved_during m evs = true ->
    Spec.originalSize (m_state (run m evs)) <> None.
Proof.
  induction evs as [|ev evs IH]; intros m; cbn [Spec.resolved_during].
  - discriminate.
  - cbn [run fold_left]. fold (run (step m ev) evs).
    destruct (Spec.resolves m ev) eqn:Hr.
    + intros _.
      assert (Hst : exists w h, initialWidth (m_state m) = Some w
                                /\ initialHeight (m_state m) = Some h).
      { destruct ev as [cw ch parent| | |props]; cbn in Hr;
          try discriminate;
          destruct (resolved_true _ _ Hr) as (_ & _ & w & h & _ & _ & ? & ?);
          eauto. }
      destruct Hst as (w & h & Hw & Hh).
      destruct (step_frozen m ev) as [Fw Fh].
      destruct (run_frozen evs (step m ev) w h (Fw w Hw) (Fh h Hh))
        as [Rw Rh].
      unfold Spec.originalSize. rewrite Rw, Rh. discriminate.
    + cbn [orb]. apply IH.
Qed.

Lemma mount_suppressed (props : FlexyFitProps) (cw ch : float)
      (parent : option ParentElement)
      (children : list CSS.CSSStyleDeclaration) :
  suppressed (mount props cw ch parent children) = true
  /\ revealed (mount props cw ch parent children) = false.
Proof.
  destruct (mount_shape props cw ch parent children) as (_ & _ & Href).
  cbv zeta in Href. unfold suppressed, revealed. rewrite Href.
  match type of Href with
  | _ = rerender ?p0 ?s0 ?p1 ?s1 (Some ?c) =>
    destruct (rerender_keeps p0 s0 p1 s1 c)
      as (c' & -> & _ & _ & _ & -> & ->)
  end.
  cbn [style].
  rewrite (proj1 (render_suppressed props initialState)).
  rewrite (proj2 (render_suppressed props initialState)).
  split; reflexivity.
Qed.

(** C6.  After the mount the container is suppressed (hidden and
    transparent), and it stays so as long as no valid measurement has been
    captured.  Over every trace of events it is suppressed exactly until
    the first call of [resize()] that finds the original size and the
    target size resolved, and revealed from then on: the suppression is
    removed at most once, exactly once when such a call occurs, and never
    applied again. *)
Theorem suppression_lifted_once (props : FlexyFitProps) (cw ch : float)
        (parent : option ParentElement)
        (children : list CSS.CSSStyleDeclaration) (evs : list Event) :
  let m := mount props cw ch parent children in
  suppressed m = true
  /\ suppressed (run m evs) = negb (Spec.resolved_during m evs)
  /\ revealed (run m evs) = Spec.resolved_during m evs
  /\ Spec.removals m evs
     = (if Spec.resolved_during m evs then 1 else 0)%nat
  /\ Spec.reapplications m evs = 0%nat
  /\ (Spec.originalSize (m_state (run m evs)) = None ->
      suppressed (run m evs) = true).
Proof.
  cbv zeta.
  destruct (mount_suppressed props cw ch parent children) as [Hs Hr].
  destruct (run_settled evs (mount props cw ch parent children))
    as (R1 & R2 & R3 & R4); [left; split; assumption|].
  rewrite Hs in R1, R3. rewrite Hr in R2. cbn [andb orb] in R1, R2, R3.
  repeat split; try assumption.
  intros Hnone. rewrite R1.
  destruct (Spec.resolved_during (mount props cw ch parent children) evs)
           eqn:Hd; [|reflexivity].
  destruct (resolved_during_captured evs _ Hd Hnone).
Qed.

Lemma suppression_lifted_once_witness :
  suppressed (run (mount Examples.noProps 0 0
                         (Some (Examples.parentBox 800 100)) [CSS.empty])
                  [ElementResized; ParentResized])
  = true.
Proof.
  refine (proj2 (proj2 (proj2 (proj2 (proj2
            (suppression_lifted_once
               Examples.noProps 0 0 (Some (Examples.parentBox 800 100))
               [CSS.empty] [ElementResized; ParentResized]))))) _).
  reflexivity.
Defined.

(** A container that measures 400 by 200 at the mount: the mount captures
    the size, the first call of the observer reveals the container, and
    later events leave it revealed. *)
Example suppression_lifted_example :
  let m := mount Examples.noProps 400 200
                 (Some (Examples.parentBox 800 100)) [CSS.empty] in
  let evs := [ElementResized; ParentResized;
              Layout 0 0 (Some (Examples.parentBox 800 100));
              ElementResized; PropsChanged (with_flex true Examples.noProps)]
  in
  suppressed m = true
  /\ revealed (run m [ElementResized]) = true
  /\ revealed (run m evs) = true
  /\ Spec.removals m evs = 1%nat.
Proof. cbv zeta. repeat split; reflexivity. Qed.

End Suppression.

(** * Further properties of the visibility gate *)

Section GateBehaviour.
Import FlexyFit Behaviour.

(** With a viewport, [checkResponsive] stores the tier decision. *)
Lemma checkResponsive_decision (props : FlexyFitProps) (window : Window)
      (st : State) :
  checkResponsive props (Some window) st
  = setResponsiveView
      (tier_decision (responsive props) (innerWidth window)) st.
Proof.
  destruct (responsive props) as [[|t r]|] eqn:Hr.
  - unfold checkResponsive. rewrite Hr. reflexivity.
  - exact (checkResponsive_band props t r window st Hr).
  - unfold checkResponsive. rewrite Hr. reflexivity.
Qed.

Lemma checkBreakpoint_none (props : FlexyFitProps) (window : option Window)
      (st : State) :
  breakpoint props = None ->
  checkBreakpoint props window st = setBreakpointView true st.
Proof. intros Hb. unfold checkBreakpoint. rewrite Hb. reflexivity. Qed.

(** X1.  Props that request no tier and carry no breakpoint are always
    rendered: after the mount, with or without a [window], and after every
    viewport resize and every change to props of the same kind. *)
Theorem ungated_always_rendered (props : FlexyFitProps)
        (window : option Window) (evs : list Event) :
  ungated props = true ->
  props_all ungated evs = true ->
  visible (run (mount props window) evs) = true.
Proof.
  intros Hu Hevs.
  assert (Hstate : forall p w st,
             ungated p = true ->
             effect p w st
             = {| responsiveView := true; breakpointView := true |}).
  { intros p w st Hp. unfold ungated in Hp. unfold effect.
    destruct (responsive p) as [[|t r]|] eqn:Hr; try discriminate;
      destruct (breakpoint p) eqn:Hb; try discriminate;
      rewrite (checkBreakpoint_none p w _ Hb);
      unfold checkResponsive; rewrite Hr; reflexivity. }
  assert (Hinv : forall evs g,
             ungated (g_props g) = true ->
             g_state g = {| responsiveView := true; breakpointView := true |} ->
             props_all ungated evs = true ->
             visible (run g evs) = true).
  { clear evs Hevs. induction evs as [|ev evs IH]; intros g Hp Hs Hall.
    - cbn [run fold_left]. unfold visible, renders, FlexyFit.
      rewrite Hs. reflexivity.
    - cbn [run fold_left]. cbn [props_all forallb] in Hall.
      apply andb_prop in Hall. destruct Hall as [Hev Hall].
      apply IH; [| |exact Hall].
      + destruct ev as [w|p]; cbn [step].
        * destruct (g_window g); exact Hp.
        * exact Hev.
      + destruct ev as [w|p]; cbn [step].
        * destruct (g_window g); [|exact Hs]. cbn [g_state].
          unfold resizeListener. rewrite checkResponsive_decision, Hs.
          unfold ungated in Hp.
          destruct (responsive (g_props g)) as [[|t r]|];
            try discriminate; reflexivity.
        * cbn [g_state]. apply Hstate. exact Hev. }
  apply Hinv; [exact Hu|apply Hstate; exact Hu|exact Hevs].
Qed.

Lemma ungated_always_rendered_witness :
  visible (run (mount Examples.noProps None)
               [ViewportResized (Examples.viewport 300 200);
                PropsChanged (with_responsive (Some []) Examples.noProps)])
  = true.
Proof.
  apply ungated_always_rendered; reflexivity.
Defined.



Lemma step_breakpointView (g : Gate) (ev : Event) :
  breakpointView (g_state (step g ev))
  = match ev with
    | ViewportResized _ => breakpointView (g_state g)
    | PropsChanged props =>
      is_null (breakpoint props) || breakpointView (g_state g)
    end.
Proof.
  destruct ev as [w|p]; cbn [step].
  - destruct (g_window g); [|reflexivity]. cbn [g_state].
    unfold resizeListener. apply checkResponsive_breakpointView.
  - cbn [g_state]. unfold effect.
    destruct (breakpoint p) as [b|] eqn:Hb; cbn [is_null orb].
    + rewrite (checkBreakpoint_breakpointView p b _ _ Hb).
      apply checkResponsive_breakpointView.
    + rewrite (checkBreakpoint_none p _ _ Hb). reflexivity.
Qed.

(** X3.  [breakpointView] never goes back to [false]: once an effect has
    run with props that have no breakpoint, the cell is [true] over every
    later viewport resize and props change, whatever breakpoint the later
    props carry. *)
Theorem breakpointView_never_reset (g : Gate) (evs : list Event) :
  breakpointView (g_state g) = true ->
  breakpointView (g_state (run g evs)) = true.
Proof.
  revert g. induction evs as [|ev evs IH]; intros g Hb.
  - exact Hb.
  - cbn [run fold_left]. apply IH. rewrite step_breakpointView, Hb.
    destruct ev; [reflexivity|apply orb_true_r].
Qed.

Lemma breakpointView_never_reset_witness :
  breakpointView
    (g_state
       (run (mount Examples.noProps (Some (Examples.viewport 800 600)))
            [PropsChanged (with_breakpoint (Some Examples.maxWidth1024)
                                           Examples.noProps);
             ViewportResized (Examples.viewport 2000 600)]))
  = true.
Proof.
  apply breakpointView_never_reset. reflexivity.
Defined.

(** X4.  A component that is mounted with a breakpoint and whose later
    props all carry one is never rendered, at any viewport: nothing ever
    writes [true] to [breakpointView]. *)
Theorem breakpoint_props_never_rendered (props : FlexyFitProps)
        (window : option Window) (evs : list Event) :
  is_null (breakpoint props) = false ->
  props_all (fun p => negb (is_null (breakpoint p))) evs = true ->
  rendered (run (mount props window) evs) = None.
Proof.
  intros Hb Hevs.
  assert (Hinv : forall evs g,
             breakpointView (g_state g) = false ->
             props_all (fun p => negb (is_null (breakpoint p))) evs = true ->
             rendered (run g evs) = None).
  { clear. induction evs as [|ev evs IH]; intros g Hv Hall.
    - cbn [run fold_left]. unfold rendered, FlexyFit.
      rewrite Hv, andb_false_r. reflexivity.
    - cbn [run fold_left]. cbn [props_all forallb] in Hall.
      apply andb_prop in Hall. destruct Hall as [Hev Hall].
      apply IH; [|exact Hall]. rewrite step_breakpointView, Hv.
      destruct ev as [w|p]; [reflexivity|].
      destruct (is_null (breakpoint p)); [discriminate|reflexivity]. }
  apply Hinv; [|exact Hevs].
  cbn [mount g_state]. unfold effect.
  destruct (breakpoint props) as [b|] eqn:Eb; [|discriminate].
  rewrite (checkBreakpoint_breakpointView props b _ _ Eb).
  apply checkResponsive_breakpointView.
Qed.

Lemma breakpoint_props_never_rendered_witness :
  rendered
    (run (mount (with_breakpoint (Some Examples.maxWidth1024)
                                 Examples.noProps)
                (Some (Examples.viewport 800 600)))
         [ViewportResized (Examples.viewport 500 600);
          PropsChanged (with_breakpoint (Some Examples.maxWidth1024)
                          (with_responsive (Some [sm]) Examples.noProps))])
  = None.
Proof.
  apply breakpoint_props_never_rendered; reflexivity.
Defined.

(** X5.  After a viewport resize [responsiveView] holds the tier decision
    at the new width (true when no tier is requested) whatever breakpoint
    the props carry, [breakpointView] is as before, and the gate sees the new
    viewport. *)
Theorem resize_stores_tier_decision (g : Gate) (old window : Window) :
  g_window g = Some old ->
  let g' := step g (ViewportResized window) in
  responsiveView (g_state g')
  = tier_decision (responsive (g_props g)) (innerWidth window)
  /\ breakpointView (g_state g') = breakpointView (g_state g)
  /\ g_window g' = Some window
  /\ g_props g' = g_props g.
Proof.
  intros Hw. cbv zeta. cbn [step]. rewrite Hw. cbn [g_state g_window g_props].
  unfold resizeListener. rewrite checkResponsive_decision.
  repeat split.
Qed.

Lemma resize_stores_tier_decision_witness :
  responsiveView
    (g_state
       (step (mount (with_breakpoint (Some Examples.maxWidth1024)
                       (with_responsive (Some [xl; xxl]) Examples.noProps))
                    (Some (Examples.viewport 800 600)))
             (ViewportResized (Examples.viewport 2000 600))))
  = true.
Proof.
  refine (proj1 (resize_stores_tier_decision
                   (mount (with_breakpoint (Some Examples.maxWidth1024)
                             (with_responsive (Some [xl; xxl])
                                              Examples.noProps))
                          (Some (Examples.viewport 800 600)))
                   (Examples.viewport 800 600)
                   (Examples.viewport 2000 600) _)).
  reflexivity.
Defined.

Lemma ResponsiveType_eqb_refl (t : ResponsiveType) :
  ResponsiveType_eqb t t = true.
Proof. destruct t; reflexivity. Qed.

(** X6.  The tier check reads the requested tiers as a set: two lists with
    the same members, in any order and with any repetitions, give the same
    result of [checkResponsive] at every viewport. *)
Theorem checkResponsive_same_members (props : FlexyFitProps)
        (r1 r2 : list ResponsiveType) (window : option Window) (st : State) :
  (forall t, includes r1 t = includes r2 t) ->
  checkResponsive (with_responsive (Some r1) props) window st
  = checkResponsive (with_responsive (Some r2) props) window st.
Proof.
  intros Hm.
  assert (Hempty : forall a b : list ResponsiveType,
             (forall t, includes a t = includes b t) -> a = [] -> b = []).
  { intros a [|t b] Hab ->; [reflexivity|].
    specialize (Hab t). rewrite includes_cons, ResponsiveType_eqb_refl in Hab.
    discriminate. }
  destruct window as [window|].
  - rewrite !checkResponsive_decision. f_equal.
    cbn [responsive with_responsive]. unfold tier_decision.
    destruct r1 as [|a r1], r2 as [|b r2]; try reflexivity.
    + discriminate (Hempty [] (b :: r2) Hm eq_refl).
    + discriminate (Hempty [] (a :: r1) (fun t => eq_sym (Hm t)) eq_refl).
    + rewrite !existsb_band, !Hm. reflexivity.
  - unfold checkResponsive. cbn [responsive with_responsive].
    destruct r1 as [|a r1], r2 as [|b r2]; try reflexivity.
    + discriminate (Hempty [] (b :: r2) Hm eq_refl).
    + discriminate (Hempty [] (a :: r1) (fun t => eq_sym (Hm t)) eq_refl).
Qed.

Lemma checkResponsive_same_members_witness :
  checkResponsive (with_responsive (Some [md; sm; md]) Examples.noProps)
                  (Some (Examples.viewport 700 600))
                  {| responsiveView := false; breakpointView := false |}
  = checkResponsive (with_responsive (Some [sm; md]) Examples.noProps)
                    (Some (Examples.viewport 700 600))
                    {| responsiveView := false; breakpointView := false |}.
Proof.
  apply checkResponsive_same_members. intros t. destruct t; reflexivity.
Defined.

(** X7.  When all five tiers are requested, the tier check lets every
    viewport width through. *)
Theorem all_tiers_every_width (props : FlexyFitProps)
        (r : list ResponsiveType) (window : Window) (st : State) :
  responsive props = Some r ->
  (forall t, includes r t = true) ->
  responsiveView (checkResponsive props (Some window) st) = true.
Proof.
  intros Hr Hall. rewrite checkResponsive_decision, Hr.
  cbn [responsiveView setResponsiveView]. unfold tier_decision.
  destruct r as [|t r]; [reflexivity|].
  rewrite existsb_band, !Hall. cbn [andb]. unfold Spec.band.
  destruct (Z.leb_spec (innerWidth window) 640),
           (Z.leb_spec (innerWidth window) 768),
           (Z.leb_spec (innerWidth window) 1024),
           (Z.leb_spec (innerWidth window) 1280),
           (Z.ltb_spec 640 (innerWidth window)),
           (Z.ltb_spec 768 (innerWidth window)),
           (Z.ltb_spec 1024 (innerWidth window)),
           (Z.ltb_spec 1280 (innerWidth window));
    try lia; reflexivity.
Qed.

Lemma all_tiers_every_width_witness :
  responsiveView
    (checkResponsive
       (with_responsive (Some [xxl; xl; lg; md; sm]) Examples.noProps)
       (Some (Examples.viewport 5000 600))
       {| responsiveView := false; breakpointView := false |})
  = true.
Proof.
  apply (all_tiers_every_width
           (with_responsive (Some [xxl; xl; lg; md; sm]) Examples.noProps)
           [xxl; xl; lg; md; sm]).
  - reflexivity.
  - intros t. destruct t; reflexivity.
Defined.

(** X8.  Without a [window] a component that requests tiers is never
    rendered: the tier check returns before it writes, no listener is
    registered, and [responsiveView] keeps its initial [false] over every
    event, as long as the props keep requesting tiers. *)
Theorem no_window_tiers_never_rendered (props : FlexyFitProps)
        (evs : list Event) :
  tiered props = true ->
  props_all tiered evs = true ->
  rendered (run (mount props None) evs) = None
  /\ g_window (run (mount props None) evs) = None.
Proof.
  intros Ht Hevs.
  assert (Hkeep : forall p st, tiered p = true ->
                               responsiveView (effect p None st)
                               = responsiveView st).
  { intros p st Hp. unfold tiered in Hp. unfold effect, checkResponsive.
    destruct (responsive p) as [[|t r]|]; try discriminate.
    unfold checkBreakpoint. destruct (breakpoint p); reflexivity. }
  assert (Hinv : forall evs g,
             g_window g = None ->
             responsiveView (g_state g) = false ->
             props_all tiered evs = true ->
             rendered (run g evs) = None /\ g_window (run g evs) = None).
  { clear evs Hevs. induction evs as [|ev evs IH]; intros g Hw Hv Hall.
    - cbn [run fold_left]. unfold rendered, FlexyFit. rewrite Hv.
      split; [reflexivity|exact Hw].
    - cbn [run fold_left]. cbn [props_all forallb] in Hall.
      apply andb_prop in Hall. destruct Hall as [Hev Hall].
      destruct ev as [w|p]; cbn [step]; rewrite ?Hw.
      + apply IH; assumption.
      + apply IH; [reflexivity| |exact Hall].
        cbn [g_state]. rewrite (Hkeep p _ Hev). exact Hv. }
  apply Hinv; [reflexivity| |exact Hevs].
  cbn [mount g_state]. rewrite (Hkeep props _ Ht). reflexivity.
Qed.

Lemma no_window_tiers_never_rendered_witness :
  rendered
    (run (mount (with_responsive (Some [sm]) Examples.noProps) None)
         [ViewportResized (Examples.viewport 300 200);
          PropsChanged (with_responsive (Some [sm; md]) Examples.noProps)])
  = None.
Proof.
  refine (proj1 (no_window_tiers_never_rendered
                   (with_responsive (Some [sm]) Examples.noProps)
                   [ViewportResized (Examples.viewport 300 200);
                    PropsChanged (with_responsive (Some [sm; md])
                                                  Examples.noProps)]
                   _ _)); reflexivity.
Defined.

End GateBehaviour.

(** * The gate of the single-file build *)

Section StandaloneGate.
Import FlexyFit Behaviour.

(** The tier check is the same function in both files. *)
Lemma checkResponsive_standalone (props : FlexyFitProps)
      (window : option Window) (st : State) :
  responsiveView (checkResponsive props window st)
  = Standalone.checkResponsive props window (responsiveView st).
Proof.
  unfold checkResponsive, Standalone.checkResponsive.
  destruct (responsive props) as [[|t r]|]; try reflexivity.
  destruct window as [window|]; [|reflexivity]. cbv zeta.
  repeat match goal with
         | |- context [if ?c then _ else _] => destruct c
         end; reflexivity.
Qed.

Lemma standalone_decision (props : FlexyFitProps) (window : Window)
      (v : bool) :
  Standalone.checkResponsive props (Some window) v
  = tier_decision (responsive props) (innerWidth window).
Proof.
  change v with (responsiveView
                   {| responsiveView := v; breakpointView := false |}).
  rewrite <- checkResponsive_standalone, checkResponsive_decision.
  reflexivity.
Qed.

(** X9.  In the single-file build, with a [window], the state of the gate
    is at every moment the tier decision for the current props at the
    current viewport width: after the mount, after every viewport resize and
    after every props change. *)
Theorem standalone_gate_tracks_tiers (props : FlexyFitProps) (w0 : Window)
        (evs : list Event) :
  let g := Standalone.run (Standalone.mount props (Some w0)) evs in
  exists w,
    Standalone.g_window g = Some w
    /\ Standalone.g_responsiveView g
       = tier_decision (responsive (Standalone.g_props g)) (innerWidth w)
    /\ Standalone.rendered g
       = if tier_decision (responsive (Standalone.g_props g)) (innerWidth w)
         then Some (with_fitTo (Some Width)
                               (with_responsive None (Standalone.g_props g)))
         else None.
Proof.
  cbv zeta.
  assert (Hinv : forall evs g w,
             Standalone.g_window g = Some w ->
             Standalone.g_responsiveView g
             = tier_decision (responsive (Standalone.g_props g))
                             (innerWidth w) ->
             exists w',
               Standalone.g_window (Standalone.run g evs) = Some w'
               /\ Standalone.g_responsiveView (Standalone.run g evs)
                  = tier_decision
                      (responsive (Standalone.g_props (Standalone.run g evs)))
                      (innerWidth w')).
  { clear. induction evs as [|ev evs IH]; intros g w Hw Hv.
    - exists w. split; assumption.
    - cbn [Standalone.run fold_left].
      destruct ev as [w1|p]; cbn [Standalone.step]; rewrite Hw.
      + apply (IH _ w1); [reflexivity|].
        cbn [Standalone.g_responsiveView Standalone.g_props].
        apply standalone_decision.
      + apply (IH _ w); [reflexivity|].
        cbn [Standalone.g_responsiveView Standalone.g_props].
        apply standalone_decision. }
  destruct (Hinv evs (Standalone.mount props (Some w0)) w0)
    as (w & Hw & Hv).
  - reflexivity.
  - cbn [Standalone.mount Standalone.g_responsiveView Standalone.g_props].
    apply standalone_decision.
  - exists w. split; [exact Hw|]. split; [exact Hv|].
    unfold Standalone.rendered, Standalone.FlexyFit, Standalone.rest.
    rewrite Hv. reflexivity.
Qed.

(** X10.  As long as no props carry a breakpoint, the public component of
    [FlexyFit.tsx] and the one of the single-file build render the same
    thing over every trace of viewport resizes and props changes: nothing, or
    the engine with the same props. *)
Theorem gates_agree_without_breakpoint (props : FlexyFitProps)
        (window : option Window) (evs : list Event) :
  is_null (breakpoint props) = true ->
  props_all (fun p => is_null (breakpoint p)) evs = true ->
  rendered (run (mount props window) evs)
  = Standalone.rendered (Standalone.run (Standalone.mount props window) evs).
Proof.
  intros Hb Hevs.
  assert (Hinv : forall evs g s,
             g_props g = Standalone.g_props s ->
             g_window g = Standalone.g_window s ->
             responsiveView (g_state g) = Standalone.g_responsiveView s ->
             breakpointView (g_state g) = true ->
             is_null (breakpoint (g_props g)) = true ->
             props_all (fun p => is_null (breakpoint p)) evs = true ->
             rendered (run g evs)
             = Standalone.rendered (Standalone.run s evs)).
  { clear. induction evs as [|ev evs IH]; intros g s Hp Hw Hr Hbv Hb Hall.
    - cbn [run Standalone.run fold_left].
      unfold rendered, Standalone.rendered, FlexyFit, Standalone.FlexyFit,
        rest, Standalone.rest.
      rewrite Hbv, andb_true_r, Hr, <- Hp.
      destruct (Standalone.g_responsiveView s); [|reflexivity].
      destruct (g_props g) as [w h f o p x ho vo r b]. cbn in Hb.
      destruct b; [discriminate|reflexivity].
    - cbn [run Standalone.run fold_left]. cbn [props_all forallb] in Hall.
      apply andb_prop in Hall. destruct Hall as [Hev Hall].
      assert (Hnone : forall q, is_null (breakpoint q) = true ->
                                breakpoint q = None)
        by (intros q; destruct (breakpoint q); [discriminate|reflexivity]).
      destruct ev as [w1|p]; cbn [step Standalone.step].
      + rewrite <- Hw. destruct (g_window g) eqn:Hgw.
        * apply IH; cbn [g_props g_window g_state Standalone.g_props
                         Standalone.g_window Standalone.g_responsiveView];
            try assumption; try reflexivity.
          -- unfold resizeListener.
             rewrite checkResponsive_standalone, Hr, Hp. reflexivity.
          -- unfold resizeListener.
             rewrite checkResponsive_breakpointView. exact Hbv.
        * apply IH; try assumption. rewrite Hgw. exact Hw.
      + apply IH; cbn [g_props g_window g_state Standalone.g_props
                       Standalone.g_window Standalone.g_responsiveView];
          try assumption; try reflexivity.
        * unfold effect. rewrite (checkBreakpoint_none p _ _ (Hnone p Hev)).
          cbn [responsiveView setBreakpointView].
          rewrite checkResponsive_standalone, Hr, Hw. reflexivity.
        * unfold effect. rewrite (checkBreakpoint_none p _ _ (Hnone p Hev)).
          reflexivity. }
  apply Hinv; try reflexivity; try assumption.
  - cbn [mount Standalone.mount g_state Standalone.g_responsiveView].
    unfold effect, checkBreakpoint.
    destruct (breakpoint props); [discriminate|].
    cbn [responsiveView setBreakpointView].
    rewrite checkResponsive_standalone. reflexivity.
  - cbn [mount g_state]. unfold effect, checkBreakpoint.
    destruct (breakpoint props); [discriminate|]. reflexivity.
Qed.

Lemma gates_agree_without_breakpoint_witness :
  rendered
    (run (mount (with_responsive (Some [md]) Examples.noProps)
                (Some (Examples.viewport 700 600)))
         [ViewportResized (Examples.viewport 900 600);
          PropsChanged (with_responsive (Some [lg]) Examples.noProps)])
  = Standalone.rendered
      (Standalone.run
         (Standalone.mount (with_responsive (Some [md]) Examples.noProps)
                           (Some (Examples.viewport 700 600)))
         [ViewportResized (Examples.viewport 900 600);
          PropsChanged (with_responsive (Some [lg]) Examples.noProps)]).
Proof.
  apply gates_agree_without_breakpoint; reflexivity.
Defined.

End StandaloneGate.

(** * Further properties of the fit engine *)

Section EngineBehaviour.
Import Dom FlexyFitInternal Behaviour.
Local Open Scope float_scope.

Lemma child_frame_refl (a : CSS.CSSStyleDeclaration) : child_frame a a.
Proof. repeat split. Qed.

Lemma children_frame_refl (l : list CSS.CSSStyleDeclaration) :
  children_frame l l.
Proof. destruct l; cbn; [exact I|split; [apply child_frame_refl|reflexivity]]. Qed.

Lemma container_frame_refl (a : CSS.CSSStyleDeclaration) :
  container_frame a a.
Proof. repeat split. Qed.

(** What [fit] and [pin_child] leave alone. *)
Lemma fit_frame (props : FlexyFitProps) (st : State) (W H : float)
      (x : HTMLDivElement) :
  exists y,
    pin_child (fit props st W H x) = Some y
    /\ container_frame (style y) (style x)
    /\ CSS.visibility (style y) = CSS.visibility (style x)
    /\ CSS.opacity (style y) = CSS.opacity (style x)
    /\ children_frame (children y) (children x).
Proof.
  destruct x as [cw ch sty par chs]. destruct sty.
  unfold fit, keepSyncRatio, pin_child, children0, update_children0,
    set_scale, set_style, set_children. cbn.
  destruct (fitTo props), par as [parent|]; cbn;
    repeat match goal with
           | |- context [if ?c then _ else _] => destruct c; cbn
           | |- context [match width props st with _ => _ end] =>
             destruct (width props st); cbn
           | |- context [match height props st with _ => _ end] =>
             destruct (height props st); cbn
           end;
    destruct chs as [|[] chs]; cbn; eexists; repeat split.
Qed.

(** X11.  A call of [resize()] on a mounted element writes nothing but
    [visibility], [opacity] and [transform] of the container and the width,
    height and [flexShrink] of its first child: the measured box, the parent,
    every other style property of the container, every other property of the
    first child, and all further children are as before. *)
Theorem resize_frame (props : FlexyFitProps) (st : State)
        (current : HTMLDivElement) :
  exists current',
    snd (resize props st (Some current)) = Some current'
    /\ clientWidth current' = clientWidth current
    /\ clientHeight current' = clientHeight current
    /\ parentElement current' = parentElement current
    /\ container_frame (style current') (style current)
    /\ children_frame (children current') (children current).
Proof.
  destruct (resize_keeps props st current) as (c & Hc & Hw & Hh & Hp & _).
  exists c. repeat (split; [assumption|]).
  destruct (Spec.resolved props st) eqn:Hr.
  - destruct (resize_resolved props st current Hr) as (W & H & Hres).
    destruct (fit_frame props st W H (reveal current))
      as (y & Hy & Hf & _ & _ & Hch).
    rewrite Hres, Hy in Hc. injection Hc as <-.
    destruct (reveal_box current) as (_ & _ & _ & Rc). rewrite Rc in Hch.
    split; [|exact Hch].
    unfold reveal in Hf.
    destruct (CSS.visibility (style current)) as [v|];
      [destruct (String.eqb v "hidden")|]; exact Hf.
  - rewrite (resize_unresolved props st current Hr) in Hc.
    injection Hc as <-.
    split; [apply container_frame_refl|apply children_frame_refl].
Qed.

(** The transform after a run that passes the guards and finds a parent. *)
Lemma resize_transform (props : FlexyFitProps) (st : State)
      (current : HTMLDivElement) (parent : ParentElement) (W H : float) :
  width props st = Some W ->
  height props st = Some H ->
  Spec.resolved props st = true ->
  parentElement current = Some parent ->
  Spec.transformOf (snd (resize props st (Some current)))
  = Some (CSS.scale
            (fst (Spec.scale_rule (fitTo props) (overflow props) W H
                    (clientWidth current) (clientHeight current)
                    (parent_clientWidth parent)
                    (parent_clientHeight parent))) None).
Proof.
  intros HW HH Hr Hp.
  destruct (resolved_true props st Hr) as (W' & H' & iw & ih & HW' & HH' & Hiw & Hih).
  assert (W' = W) by congruence. assert (H' = H) by congruence. subst W' H'.
  unfold resize. rewrite HW, HH, Hiw, Hih. cbn [snd].
  destruct (reveal_box current) as (Rw & Rh & Rp & _).
  rewrite Hp in Rp.
  rewrite (fit_scale_rule props st W H (reveal current) parent Rp).
  cbv zeta. rewrite Rw, Rh.
  set (rule := Spec.scale_rule _ _ _ _ _ _ _ _).
  destruct (flex props).
  - destruct (keepSyncRatio_box props st (snd rule)
                (set_scale (fst rule) (reveal current)))
      as (c & -> & _ & _ & Hs & _).
    destruct (pin_child_box c) as (c' & -> & _ & _ & Hs' & _).
    cbn [Spec.transformOf]. rewrite Hs', Hs. reflexivity.
  - destruct (pin_child_box (set_scale (fst rule) (reveal current)))
      as (c' & -> & _ & _ & Hs' & _).
    cbn [Spec.transformOf]. rewrite Hs'. reflexivity.
Qed.

(** X12.  When overflow is allowed the fit axis always decides: the factor
    is [clientWidth / width] for the axis [width] and
    [clientHeight / height] for the axis [height], whatever the size of the
    parent. *)
Theorem overflow_allowed_axis_decides (props : FlexyFitProps) (st : State)
        (current : HTMLDivElement) (parent : ParentElement) (W H : float) :
  overflow props = true ->
  width props st = Some W ->
  height props st = Some H ->
  Spec.resolved props st = true ->
  parentElement current = Some parent ->
  Spec.transformOf (snd (resize props st (Some current)))
  = Some (CSS.scale (match fitTo props with
                     | Width => clientWidth current / W
                     | Height => clientHeight current / H
                     end) None).
Proof.
  intros Ho HW HH Hr Hp.
  rewrite (resize_transform props st current parent W H HW HH Hr Hp).
  unfold Spec.scale_rule. rewrite Ho. destruct (fitTo props); reflexivity.
Qed.

Lemma overflow_allowed_axis_decides_witness :
  Spec.transformOf
    (snd (resize
            {| _width := None; _height := None; _fitTo := Some Width;
               overflow := true; px := false; flex := false;
               horizontalOrigin := None; verticalOrigin := None;
               responsive := None; breakpoint := None |}
            Examples.captured400x200
            (Some (Examples.container Examples.noProps 800 400 800 100))))
  = Some (CSS.scale 2 None).
Proof.
  exact (overflow_allowed_axis_decides
           {| _width := None; _height := None; _fitTo := Some Width;
              overflow := true; px := false; flex := false;
              horizontalOrigin := None; verticalOrigin := None;
              responsive := None; breakpoint := None |}
           Examples.captured400x200
           (Examples.container Examples.noProps 800 400 800 100)
           (Examples.parentBox 800 100) 400 200
           eq_refl eq_refl eq_refl eq_refl eq_refl).
Defined.

(** X13.  Without a parent element a run that passes the guards still
    reveals the container and pins the first child, but it writes no
    transform and no explicit size. *)
Theorem resize_without_parent (props : FlexyFitProps) (st : State)
        (current : HTMLDivElement) :
  Spec.resolved props st = true ->
  parentElement current = None ->
  snd (resize props st (Some current)) = pin_child (Some (reveal current))
  /\ Spec.transformOf (snd (resize props st (Some current)))
     = CSS.transform (style current)
  /\ childSize (snd (resize props st (Some current)))
     = childSize (Some current).
Proof.
  intros Hr Hp.
  destruct (resize_resolved props st current Hr) as (W & H & Hres).
  destruct (reveal_box current) as (_ & _ & Rp & Rc).
  rewrite Hp in Rp.
  rewrite (fit_no_parent props st W H (reveal current) Rp) in Hres.
  rewrite Hres. split; [reflexivity|].
  destruct current as [cw ch sty par chs]. destruct sty as [? ? vis ? ? ? ? ? ? ?].
  unfold reveal, pin_child, children0, update_children0, childSize. cbn.
  destruct vis as [v|]; [destruct (String.eqb v "hidden")|];
    destruct chs as [|[] chs]; cbn; split; reflexivity.
Qed.

Lemma resize_without_parent_witness :
  let current :=
    {| clientWidth := 800; clientHeight := 400;
       style := render Examples.noProps initialState;
       parentElement := None; children := [CSS.empty] |} in
  Spec.transformOf
    (snd (resize Examples.noProps Examples.captured400x200 (Some current)))
  = None.
Proof.
  refine (proj1 (proj2 (resize_without_parent
                          Examples.noProps Examples.captured400x200
                          {| clientWidth := 800; clientHeight := 400;
                             style := render Examples.noProps initialState;
                             parentElement := None;
                             children := [CSS.empty] |} _ _)));
    reflexivity.
Defined.

(** X14.  Every run of [resize()] that passes the guards leaves the first
    child, when there is one, with [flexShrink] set to ["0"], whichever
    branch computed the scale and whether or not there is a parent. *)
Theorem first_child_pinned (props : FlexyFitProps) (st : State)
        (current : HTMLDivElement) (child : CSS.CSSStyleDeclaration)
        (others : list CSS.CSSStyleDeclaration) :
  Spec.resolved props st = true ->
  children current = child :: others ->
  exists current' child',
    snd (resize props st (Some current)) = Some current'
    /\ children current' = child' :: others
    /\ CSS.flexShrink child' = Some "0"%string.
Proof.
  intros Hr Hc.
  destruct (resize_resolved props st current Hr) as (W & H & ->).
  destruct (reveal_box current) as (_ & _ & _ & Rc). rewrite Hc in Rc.
  revert Rc. generalize (reveal current). intros x Hx.
  destruct x as [cw ch sty par chs]. cbn in Hx. subst chs.
  unfold fit, keepSyncRatio, pin_child, children0, update_children0,
    set_scale, set_style, set_children. cbn.
  destruct (fitTo props), par as [parent|]; cbn;
    repeat match goal with
           | |- context [if ?c then _ else _] => destruct c; cbn
           | |- context [match width props st with _ => _ end] =>
             destruct (width props st); cbn
           | |- context [match height props st with _ => _ end] =>
             destruct (height props st); cbn
           end;
    eexists; eexists; repeat split.
Qed.

Lemma first_child_pinned_witness :
  exists current' child',
    snd (resize (with_flex true Examples.noProps) Examples.captured400x200
                (Some (Examples.container Examples.noProps 800 400 800 100)))
    = Some current'
    /\ children current' = [child']
    /\ CSS.flexShrink child' = Some "0"%string.
Proof.
  apply (first_child_pinned
           (with_flex true Examples.noProps) Examples.captured400x200
           (Examples.container Examples.noProps 800 400 800 100)
           CSS.empty []); reflexivity.
Defined.

(** X15.  With ratio sync disabled ([flex] falsy) no run of [resize()]
    writes the explicit width or height of the first child. *)
Theorem flex_disabled_child_size_kept (props : FlexyFitProps) (st : State)
        (ref : option HTMLDivElement) :
  flex props = false ->
  childSize (snd (resize props st ref)) = childSize ref.
Proof.
  intros Hf. destruct ref as [current|]; [|reflexivity].
  destruct (Spec.resolved props st) eqn:Hr.
  - destruct (resize_resolved props st current Hr) as (W & H & ->).
    destruct (reveal_box current) as (_ & _ & _ & Rc).
    assert (Hsize : childSize (Some (reveal current))
                    = childSize (Some current))
      by (unfold childSize, children0; rewrite Rc; reflexivity).
    rewrite <- Hsize. generalize (reveal current). intros x.
    destruct x as [cw ch sty par chs].
    unfold fit, pin_child, children0, update_children0, set_scale,
      set_style, set_children, childSize. rewrite Hf. cbn.
    destruct chs as [|[] chs], (fitTo props), par as [parent|]; cbn;
      try reflexivity;
      repeat match goal with
             | |- context [if ?c then _ else _] => destruct c; cbn
             end; reflexivity.
  - rewrite (resize_unresolved props st current Hr). reflexivity.
Qed.

Lemma flex_disabled_child_size_kept_witness :
  childSize
    (snd (resize Examples.noProps Examples.captured400x200
                 (Some (Examples.container Examples.noProps 800 400 800 100))))
  = Some (None, None).
Proof.
  exact (flex_disabled_child_size_kept
           Examples.noProps Examples.captured400x200
           (Some (Examples.container Examples.noProps 800 400 800 100))
           eq_refl).
Defined.

End EngineBehaviour.

Section RatioSyncBehaviour.
Import Dom FlexyFitInternal Behaviour.
Local Open Scope float_scope.

(** X16.  [keepSyncRatio] does nothing when the container has no parent,
    when the original width or height is not known, or when there is no
    child to resize. *)
Theorem keepSyncRatio_nothing_to_do (props : FlexyFitProps) (st : State)
        (axis : FitTo) (current : HTMLDivElement) :
  parentElement current = None
  \/ width props st = None
  \/ height props st = None
  \/ children current = [] ->
  keepSyncRatio props st axis (Some current) = Some current.
Proof.
  intros Hcase. unfold keepSyncRatio.
  destruct (parentElement current) as [parent|]; [|reflexivity].
  destruct (width props st) as [W|]; [|reflexivity].
  destruct (height props st) as [H|]; [|reflexivity].
  destruct Hcase as [Hc|[Hc|[Hc|Hc]]]; try discriminate.
  cbv zeta. unfold update_children0. rewrite Hc.
  destruct axis;
    destruct (strict_ne (W / H)
                        (parent_clientWidth parent
                         / parent_clientHeight parent)); reflexivity.
Qed.

Lemma keepSyncRatio_nothing_to_do_witness :
  keepSyncRatio Examples.noProps initialState Width
                (Some (Examples.container Examples.noProps 800 400 800 100))
  = Some (Examples.container Examples.noProps 800 400 800 100).
Proof.
  apply keepSyncRatio_nothing_to_do. right. left. reflexivity.
Defined.


(** X18.  [resize()] records the bounding box of the parent only while
    none is known: when either cell of the parent's box is set, a run leaves
    both as they are; when both are unset and the parent can be measured, it
    stores the measured box. *)
Theorem resize_parent_box_once (props : FlexyFitProps) (st : State)
        (current : HTMLDivElement) :
  (is_null (fullParentWidth st) && is_null (fullParentHeight st) = false ->
   fullParentWidth (fst (resize props st (Some current)))
   = fullParentWidth st
   /\ fullParentHeight (fst (resize props st (Some current)))
      = fullParentHeight st)
  /\ (forall parent rect,
         fullParentWidth st = None -> fullParentHeight st = None ->
         parentElement current = Some parent ->
         getBoundingClientRect parent = Some rect ->
         fullParentWidth (fst (resize props st (Some current)))
         = Some (rect_width rect)
         /\ fullParentHeight (fst (resize props st (Some current)))
            = Some (rect_height rect)).
Proof.
  rewrite resize_state. unfold capture. cbv zeta. split.
  - intros Hknown. rewrite Hknown.
    destruct (strict_ne (clientWidth current) 0
              && strict_ne (clientHeight current) 0),
             (is_null (initialWidth st)), (is_null (initialHeight st));
      destruct (parentElement current) as [parent|];
      try destruct (getBoundingClientRect parent); split; reflexivity.
  - intros parent rect Hw Hh Hp Hrect. rewrite Hw, Hh, Hp, Hrect.
    split; reflexivity.
Qed.

Lemma resize_parent_box_once_witness :
  fullParentWidth
    (fst (resize Examples.noProps Examples.captured400x200
                 (Some (Examples.container Examples.noProps
                                           800 400 1000 125))))
  = Some 800.
Proof.
  refine (proj1 (proj1 (resize_parent_box_once
                          Examples.noProps Examples.captured400x200
                          (Examples.container Examples.noProps
                                              800 400 1000 125)) _)).
  reflexivity.
Defined.

End RatioSyncBehaviour.

Section MountBehaviour.
Import Dom FlexyFitInternal Behaviour.
Local Open Scope float_scope.

(** An update writes neither [transform] nor the children. *)
Lemma rerender_transform (props0 : FlexyFitProps) (st0 : State)
      (props1 : FlexyFitProps) (st1 : State) (ref : option HTMLDivElement) :
  Spec.transformOf (rerender props0 st0 props1 st1 ref)
  = Spec.transformOf ref
  /\ option_map children (rerender props0 st0 props1 st1 ref)
     = option_map children ref.
Proof. destruct ref as [current|]; split; reflexivity. Qed.

(** X19.  The callback of the parent's resize observer only records the
    parent's bounding box: it does not recompute the scale.  After the event
    the container carries the transform it carried before, its children are
    untouched, the original size is the same, and the state holds the box
    just measured. *)
Theorem parent_resized_records_only (m : Mounted) :
  let m' := step m ParentResized in
  Spec.transformOf (m_ref m') = Spec.transformOf (m_ref m)
  /\ option_map children (m_ref m') = option_map children (m_ref m)
  /\ initialWidth (m_state m') = initialWidth (m_state m)
  /\ initialHeight (m_state m') = initialHeight (m_state m)
  /\ (forall current parent rect,
         m_ref m = Some current ->
         parentElement current = Some parent ->
         getBoundingClientRect parent = Some rect ->
         fullParentWidth (m_state m') = Some (rect_width rect)
         /\ fullParentHeight (m_state m') = Some (rect_height rect)).
Proof.
  cbv zeta. cbn [step m_ref m_state].
  destruct (rerender_transform (m_props m) (m_state m) (m_props m)
              (parentResize (m_state m) (m_ref m)) (m_ref m)) as [Ht Hc].
  destruct (parentResize_initial (m_state m) (m_ref m)) as [Hw Hh].
  repeat (split; [assumption|]).
  intros current parent rect Hm Hp Hrect. unfold parentResize.
  rewrite Hm, Hp, Hrect. split; reflexivity.
Qed.

Lemma parent_resized_records_only_witness :
  let m := {| m_props := Examples.noProps;
              m_state := Examples.captured400x200;
              m_ref := Some (Examples.container Examples.noProps
                                                400 200 1000 125) |} in
  fullParentWidth (m_state (step m ParentResized)) = Some 1000
  /\ fullParentHeight (m_state (step m ParentResized)) = Some 125.
Proof.
  cbv zeta.
  destruct (parent_resized_records_only
              {| m_props := Examples.noProps;
                 m_state := Examples.captured400x200;
                 m_ref := Some (Examples.container Examples.noProps
                                                   400 200 1000 125) |})
    as (_ & _ & _ & _ & Hbox).
  exact (Hbox (Examples.container Examples.noProps 400 200 1000 125)
              (Examples.parentBox 1000 125)
              {| rect_width := 1000; rect_height := 125 |}
              eq_refl eq_refl eq_refl).
Defined.

(** In percent mode the rendered style does not read the parent's box. *)
Lemma render_percent (props : FlexyFitProps) (st st' : State) :
  px props = false ->
  initialHeight st' = initialHeight st ->
  render props st' = render props st.
Proof.
  intros Hpx Hh. unfold render. rewrite Hpx, Hh, !andb_false_r.
  reflexivity.
Qed.

(** An update between two equal renders of percent mode writes nothing. *)
Lemma commitUpdate_percent (props : FlexyFitProps) (st : State)
      (dom : CSS.CSSStyleDeclaration) :
  px props = false ->
  commitUpdate (render props st) (render props st) dom = dom.
Proof.
  intros Hpx. destruct dom. unfold commitUpdate, render, patch.
  rewrite Hpx, !andb_false_r. cbn.
  destruct (initialHeight st), (horizontalOrigin props) as [[]|],
           (verticalOrigin props) as [[]|]; reflexivity.
Qed.

(** X20.  In percent mode ([px] falsy) the callback of the parent's resize
    observer changes nothing on the page: the element, its style and its
    children are exactly as before. *)
Theorem parent_resized_percent_mode_silent (m : Mounted) :
  px (m_props m) = false ->
  m_ref (step m ParentResized) = m_ref m.
Proof.
  intros Hpx. cbn [step m_ref]. unfold rerender.
  destruct (parentResize_initial (m_state m) (m_ref m)) as [_ Hh].
  rewrite (render_percent (m_props m) (m_state m) _ Hpx Hh).
  destruct (m_ref m) as [current|]; [|reflexivity]. cbn [option_map].
  rewrite (commitUpdate_percent (m_props m) (m_state m) _ Hpx).
  destruct current; reflexivity.
Qed.

Lemma parent_resized_percent_mode_silent_witness :
  let m := run (mount Examples.noProps 400 200
                      (Some (Examples.parentBox 800 100)) [CSS.empty])
               [ElementResized] in
  m_ref (step m ParentResized) = m_ref m.
Proof.
  cbv zeta. apply parent_resized_percent_mode_silent. reflexivity.
Defined.

End MountBehaviour.

Section TraceBehaviour.
Import Dom FlexyFitInternal Behaviour.
Local Open Scope float_scope.

Lemma unresolved_without_size (props : FlexyFitProps) (st : State) :
  Spec.originalSize st = None -> Spec.resolved props st = false.
Proof.
  unfold Spec.originalSize, Spec.resolved.
  destruct (initialWidth st), (initialHeight st); try discriminate;
    intros _; cbn; rewrite ?andb_false_r; reflexivity.
Qed.

(** A step that ends without an original size started without one and left
    the transform and the children as they were. *)
Lemma step_without_size (m : Mounted) (ev : Event) :
  Spec.originalSize (m_state (step m ev)) = None ->
  Spec.originalSize (m_state m) = None
  /\ Spec.transformOf (m_ref (step m ev)) = Spec.transformOf (m_ref m)
  /\ option_map children (m_ref (step m ev))
     = option_map children (m_ref m).
Proof.
  intros Hnone.
  assert (Hm : Spec.originalSize (m_state m) = None).
  { destruct (Spec.originalSize (m_state m)) as [[w h]|] eqn:Ho;
      [|reflexivity].
    unfold Spec.originalSize in Ho, Hnone.
    destruct (initialWidth (m_state m)) as [w'|] eqn:Hw; [|discriminate].
    destruct (initialHeight (m_state m)) as [h'|] eqn:Hh; [|discriminate].
    destruct (step_frozen m ev) as [Fw Fh].
    rewrite (Fw w' Hw), (Fh h' Hh) in Hnone. discriminate. }
  split; [exact Hm|].
  destruct ev as [cw ch parent| | |props]; cbn [step].
  - destruct (m_ref m); split; reflexivity.
  - destruct (m_ref m) as [current|] eqn:Href.
    + pose proof (resize_unresolved (m_props m) (m_state m) current
                    (unresolved_without_size (m_props m) (m_state m) Hm))
        as Hres.
      destruct (resize (m_props m) (m_state m) (Some current))
        as [next ref].
      cbn [snd] in Hres. subst ref. cbn [m_ref]. apply rerender_transform.
    + split; reflexivity.
  - cbn [m_ref]. apply rerender_transform.
  - destruct (rerender_transform (m_props m) (m_state m) props (m_state m)
                                 (m_ref m)) as [Ht Hc].
    destruct (rerender (m_props m) (m_state m) props (m_state m) (m_ref m))
      as [current|] eqn:Href.
    + pose proof (resize_unresolved props (m_state m) current
                    (unresolved_without_size props (m_state m) Hm))
        as Hres.
      destruct (resize props (m_state m) (Some current)) as [next ref].
      cbn [snd] in Hres. subst ref. cbn [m_ref].
      destruct (rerender_transform props (m_state m) props next
                                   (Some current)) as [Ht' Hc'].
      rewrite Ht', Hc', Ht, Hc. split; reflexivity.
    + cbn [resize m_ref rerender option_map]. rewrite <- Ht, <- Hc.
      split; reflexivity.
Qed.

(** X21.  Nothing is scaled before the original size is known: as long as
    no measurement with both dimensions nonzero has been captured, whatever
    events occurred since the mount, the container carries no transform and
    its children are exactly those it was mounted with. *)
Theorem nothing_written_before_capture (props : FlexyFitProps)
        (cw ch : float) (parent : option ParentElement)
        (chs : list CSS.CSSStyleDeclaration) (evs : list Event) :
  let m := run (mount props cw ch parent chs) evs in
  Spec.originalSize (m_state m) = None ->
  Spec.transformOf (m_ref m) = None
  /\ option_map children (m_ref m) = Some chs.
Proof.
  cbv zeta.
  assert (Hrun : forall evs m,
             Spec.originalSize (m_state (run m evs)) = None ->
             Spec.transformOf (m_ref (run m evs)) = Spec.transformOf (m_ref m)
             /\ option_map children (m_ref (run m evs))
                = option_map children (m_ref m)).
  { clear. induction evs as [|ev evs IH]; intros m Hnone.
    - split; reflexivity.
    - cbn [run fold_left] in *. fold (run (step m ev) evs) in *.
      destruct (IH (step m ev) Hnone) as [Ht Hc].
      assert (Hstep : Spec.originalSize (m_state (step m ev)) = None).
      { destruct (Spec.originalSize (m_state (step m ev))) as [[w h]|] eqn:Ho;
          [|reflexivity].
        unfold Spec.originalSize in Ho, Hnone.
        destruct (initialWidth (m_state (step m ev))) as [w'|] eqn:Hw;
          [|discriminate].
        destruct (initialHeight (m_state (step m ev))) as [h'|] eqn:Hh;
          [|discriminate].
        destruct (run_frozen evs (step m ev) w' h' Hw Hh) as [Rw Rh].
        rewrite Rw, Rh in Hnone. discriminate. }
      destruct (step_without_size m ev Hstep) as (_ & Ht' & Hc').
      rewrite Ht, Hc, Ht', Hc'. split; reflexivity. }
  intros Hnone. destruct (Hrun evs _ Hnone) as [Ht Hc]. rewrite Ht, Hc.
  destruct (mount_shape props cw ch parent chs) as (_ & _ & Href).
  cbv zeta in Href. rewrite Href.
  match goal with
  | |- context [rerender ?p0 ?s0 ?p1 ?s1 ?r] =>
    destruct (rerender_transform p0 s0 p1 s1 r) as [-> ->]
  end.
  cbn. unfold render. cbv zeta.
  repeat match goal with
         | |- context [if ?c then _ else _] => destruct c
         end; split; reflexivity.
Qed.

Lemma nothing_written_before_capture_witness :
  Spec.transformOf
    (m_ref (run (mount (with_size (Some 400) (Some 200) Examples.noProps)
                       800 0 (Some (Examples.parentBox 800 100))
                       [CSS.empty])
                [ElementResized; ParentResized; ElementResized]))
  = None.
Proof.
  refine (proj1 (nothing_written_before_capture
                   (with_size (Some 400) (Some 200) Examples.noProps)
                   800 0 (Some (Examples.parentBox 800 100)) [CSS.empty]
                   [ElementResized; ParentResized; ElementResized] _)).
  reflexivity.
Defined.

(** X22.  Over every trace of events from the mount the engine keeps its
    element, and its state cells are set in pairs: [initialWidth] with
    [initialHeight], and [fullParentWidth] with [fullParentHeight]. *)
Theorem mounted_state_paired (props : FlexyFitProps) (cw ch : float)
        (parent : option ParentElement)
        (chs : list CSS.CSSStyleDeclaration) (evs : list Event) :
  let m := run (mount props cw ch parent chs) evs in
  (exists current, m_ref m = Some current)
  /\ Spec.paired (m_state m)
  /\ parent_paired (m_state m).
Proof.
  cbv zeta.
  assert (Hcap : forall st current,
             parent_paired st -> parent_paired (capture st current)).
  { intros [iw ih fpw fph] current. unfold parent_paired, capture. cbn.
    intros Hp.
    destruct (strict_ne (clientWidth current) 0
              && strict_ne (clientHeight current) 0), iw, ih;
      destruct (parentElement current) as [par|]; cbn; try exact Hp;
      destruct (getBoundingClientRect par); cbn; try exact Hp;
      destruct fpw, fph; cbn; try exact Hp; reflexivity. }
  assert (Hpar : forall st ref,
             parent_paired st -> parent_paired (parentResize st ref)).
  { intros st ref Hp. unfold parentResize.
    destruct ref as [current|]; [|exact Hp].
    destruct (parentElement current) as [par|]; [|exact Hp].
    destruct (getBoundingClientRect par); [reflexivity|exact Hp]. }
  assert (Hinv : forall evs m current,
             m_ref m = Some current ->
             Spec.paired (m_state m) ->
             parent_paired (m_state m) ->
             (exists current', m_ref (run m evs) = Some current')
             /\ Spec.paired (m_state (run m evs))
             /\ parent_paired (m_state (run m evs))).
  { clear - Hcap Hpar. induction evs as [|ev evs IH];
      intros m current Hm Hp Hpp.
    - cbn [run fold_left]. eauto.
    - cbn [run fold_left]. fold (run (step m ev) evs).
      destruct (step_ref m ev current Hm) as (c' & Hc' & _).
      destruct (step_original m ev current Hm Hp) as [Hp' _].
      apply (IH (step m ev) c' Hc' Hp').
      pose proof (step_state m ev current Hm) as Hs.
      destruct ev as [w h par| | |p].
      + rewrite Hs. exact Hpp.
      + destruct Hs as (c & -> & _). apply Hcap. exact Hpp.
      + rewrite Hs. apply Hpar. exact Hpp.
      + destruct Hs as (c & -> & _). apply Hcap. exact Hpp. }
  destruct (mount_shape props cw ch parent chs) as (_ & Hst & Href).
  cbv zeta in Hst, Href.
  match type of Href with
  | _ = rerender ?p0 ?s0 ?p1 ?s1 (Some ?c) =>
    destruct (rerender_keeps p0 s0 p1 s1 c) as (c' & Hc' & _);
      rewrite Hc' in Href;
      pose proof (capture_original initialState c eq_refl) as [Hp _];
      pose proof (Hcap initialState c eq_refl) as Hpp
  end.
  rewrite <- Hst in Hp, Hpp.
  exact (Hinv evs _ c' Href Hp Hpp).
Qed.

(** X23.  A resize of the container brings the transform up to date: after
    the observer's callback in a render with both sizes resolved and a parent
    present, and after the render it causes is committed, the container
    carries the factor of the scale rule for the sizes just measured. *)
Theorem element_resized_rescales (m : Mounted) (current : HTMLDivElement)
        (parent : ParentElement) (W H : float) :
  m_ref m = Some current ->
  parentElement current = Some parent ->
  width (m_props m) (m_state m) = Some W ->
  height (m_props m) (m_state m) = Some H ->
  Spec.resolved (m_props m) (m_state m) = true ->
  Spec.transformOf (m_ref (step m ElementResized))
  = Some (CSS.scale
            (fst (Spec.scale_rule (fitTo (m_props m)) (overflow (m_props m))
                    W H (clientWidth current) (clientHeight current)
                    (parent_clientWidth parent)
                    (parent_clientHeight parent))) None).
Proof.
  intros Hm Hp HW HH Hr. cbn [step]. rewrite Hm.
  pose proof (resize_transform (m_props m) (m_state m) current parent W H
                               HW HH Hr Hp) as Ht.
  destruct (resize (m_props m) (m_state m) (Some current)) as [next ref].
  cbn [snd] in Ht. cbn [m_ref].
  rewrite (proj1 (rerender_transform (m_props m) (m_state m) (m_props m)
                                     next ref)).
  exact Ht.
Qed.

Lemma element_resized_rescales_witness :
  Spec.transformOf
    (m_ref (step {| m_props := Examples.noProps;
                    m_state := Examples.captured400x200;
                    m_ref := Some (Examples.container Examples.noProps
                                                      800 400 800 1000) |}
                 ElementResized))
  = Some (CSS.scale 2 None).
Proof.
  exact (element_resized_rescales
           {| m_props := Examples.noProps;
              m_state := Examples.captured400x200;
              m_ref := Some (Examples.container Examples.noProps
                                                800 400 800 1000) |}
           (Examples.container Examples.noProps 800 400 800 1000)
           (Examples.parentBox 800 1000) 400 200
           eq_refl eq_refl eq_refl eq_refl eq_refl).
Defined.

End TraceBehaviour.

Section ZeroSizedParent.
Import Dom FlexyFitInternal Behaviour.
Local Open Scope float_scope.







End ZeroSizedParent.
